(** * LFRing: a flash-backed ring buffer (src/LFRing.c, src/LFRing.h)

    A shallow embedding of the ring-buffer engine.  The C code keeps the
    buffer position in a [ringbuf_meta_t] passed by pointer, persists it in
    an NVS namespace and stores the records in one LittleFS file.  Here the
    struct, the NVS partition and the file system form an explicit machine
    state that every function threads through a small state monad.

    Target conventions (ESP32, ILP32): [int], [long] and [size_t] are 32
    bits wide, [uint32_t] arithmetic wraps modulo 2^32, and a [size_t] or
    [uint32_t] stored into an [int] is reinterpreted in two's complement.
    The FreeRTOS mutex is not modelled: the embedding is sequential. *)

From Stdlib Require Import ZArith Lia Strings.String Strings.Byte.
From stdpp Require Import gmap strings list fin_maps.

Local Open Scope Z_scope.

(** ** Machine integers *)

Definition u32 (x : Z) : Z := x mod 2 ^ 32.
Definition s32 (x : Z) : Z := (x + 2 ^ 31) mod 2 ^ 32 - 2 ^ 31.

(** ** LFRing.h *)

Definition LFRB_MAX_PATH : nat := 64.

Definition LFRB_OK : Z := 0.
Definition LFRB_NVS_ERROR : Z := 1.
Definition LFRB_LFS_ERROR : Z := 2.
Definition LFRB_ROOT_NOT_FOUND_ERROR : Z := 3.
Definition LFRB_NFILE_ERROR : Z := 4.

(** Array bounds taken from the ESP-IDF headers the struct is declared with
    (esp_vfs.h and nvs.h). *)
Definition ESP_VFS_PATH_MAX : nat := 15.
Definition NVS_KEY_NAME_MAX_SIZE : nat := 16.

(** [ringbuf_meta_t] without its [lock] handle. *)
Record ringbuf_meta_t := {
  root : string;
  nvs_namespace : string;
  head : Z;
  tail : Z;
  item_size : Z;
  item_num : Z
}.

Definition with_root (v : string) (m : ringbuf_meta_t) : ringbuf_meta_t :=
  {| root := v; nvs_namespace := nvs_namespace m; head := head m;
     tail := tail m; item_size := item_size m; item_num := item_num m |}.
Definition with_nvs_namespace (v : string) (m : ringbuf_meta_t)
    : ringbuf_meta_t :=
  {| root := root m; nvs_namespace := v; head := head m;
     tail := tail m; item_size := item_size m; item_num := item_num m |}.
Definition with_head (v : Z) (m : ringbuf_meta_t) : ringbuf_meta_t :=
  {| root := root m; nvs_namespace := nvs_namespace m; head := v;
     tail := tail m; item_size := item_size m; item_num := item_num m |}.
Definition with_tail (v : Z) (m : ringbuf_meta_t) : ringbuf_meta_t :=
  {| root := root m; nvs_namespace := nvs_namespace m; head := head m;
     tail := v; item_size := item_size m; item_num := item_num m |}.
Definition with_item_size (v : Z) (m : ringbuf_meta_t) : ringbuf_meta_t :=
  {| root := root m; nvs_namespace := nvs_namespace m; head := head m;
     tail := tail m; item_size := v; item_num := item_num m |}.
Definition with_item_num (v : Z) (m : ringbuf_meta_t) : ringbuf_meta_t :=
  {| root := root m; nvs_namespace := nvs_namespace m; head := head m;
     tail := tail m; item_size := item_size m; item_num := v |}.

(** ** The environment: NVS partition and file system *)

(** One call of the block layer, recorded when [ringbuf_write] or
    [ringbuf_read] is entered: the slot it addresses and the item count. *)
Inductive blk_event :=
| WriteSlots (slot count : Z)
| ReadSlots (slot count : Z).

Record world := {
  nvs_ready : bool;                      (* nvs_open can succeed at all *)
  nvs : gmap string (gmap string Z);     (* namespace -> key -> u32 value *)
  fs_dirs : gset string;                 (* paths that stat() finds *)
  fs_writable : bool;                    (* fopen "wb" can create a file *)
  fs_capacity : nat;                     (* longest file the volume holds *)
  fs_files : gmap string (list byte);    (* path -> file content *)
  blk_log : list blk_event               (* block-layer calls, oldest first *)
}.

Definition with_nvs (v : gmap string (gmap string Z)) (w : world) : world :=
  {| nvs_ready := nvs_ready w; nvs := v; fs_dirs := fs_dirs w;
     fs_writable := fs_writable w; fs_capacity := fs_capacity w;
     fs_files := fs_files w; blk_log := blk_log w |}.
Definition with_fs_files (v : gmap string (list byte)) (w : world) : world :=
  {| nvs_ready := nvs_ready w; nvs := nvs w; fs_dirs := fs_dirs w;
     fs_writable := fs_writable w; fs_capacity := fs_capacity w;
     fs_files := v; blk_log := blk_log w |}.
Definition with_blk_log (v : list blk_event) (w : world) : world :=
  {| nvs_ready := nvs_ready w; nvs := nvs w; fs_dirs := fs_dirs w;
     fs_writable := fs_writable w; fs_capacity := fs_capacity w;
     fs_files := fs_files w; blk_log := v |}.

(** *** NVS primitives *)

(** [nvs_open(ns, NVS_READONLY)] succeeds when the namespace exists. *)
Definition nvs_open_readonly (ns : string) (w : world) : bool :=
  nvs_ready w && bool_decide (is_Some (nvs w !! ns)).

(** [nvs_open(ns, NVS_READWRITE)] creates the namespace when needed. *)
Definition nvs_open_readwrite (w : world) : bool := nvs_ready w.

(** [nvs_get_u32(handle, key, &out)]: the stored 32-bit value, and [out]
    keeps its old value when the key is missing. *)
Definition nvs_get_u32 (ns key : string) (old : Z) (w : world) : Z :=
  match nvs w !! ns with
  | Some kv => match kv !! key with Some v => u32 v | None => old end
  | None => old
  end.

Definition nvs_set_u32 (ns key : string) (v : Z) (w : world) : world :=
  with_nvs (<[ns := <[key := v]> (default ∅ (nvs w !! ns))]> (nvs w)) w.

(** *** stdio primitives on one file *)

(** [fseek(f, off, SEEK_SET)] right after [fopen]: a negative [long]
    offset is refused and the position stays at the start. *)
Definition fseek_set (off : Z) : nat :=
  if off <? 0 then 0%nat else Z.to_nat off.

(** Bytes [bs] stored at position [p]; a gap past the end reads as zero. *)
Definition pwrite (c : list byte) (p : nat) (bs : list byte) : list byte :=
  match bs with
  | [] => c
  | _ => take p c ++ replicate (p - length c) x00 ++ bs
           ++ drop (p + length bs) c
  end.

(** [fwrite(data, size, nmemb, f)] at position [p] on a volume that holds
    files of at most [cap] bytes: the bytes that fit are stored and the
    number of complete items is returned. *)
Definition fwrite (cap : nat) (c : list byte) (p : nat)
    (data : list byte) (size nmemb : Z) : list byte * Z :=
  let bytes := take (cap - p) (take (Z.to_nat (size * nmemb)) data) in
  (pwrite c p bytes,
   if size =? 0 then 0 else Z.of_nat (length bytes) / size).

(** [fread(out, size, nmemb, f)] at position [p]: the complete items
    available, at most [nmemb], and their count. *)
Definition fread (c : list byte) (p : nat) (size nmemb : Z) : list byte * Z :=
  let avail := Z.of_nat (length c - p) in
  let n := if size =? 0 then 0 else Z.min nmemb (avail / size) in
  (take (Z.to_nat (n * size)) (drop p c), n).

(** ** The state monad of the engine *)

Record state := { meta : ringbuf_meta_t; env : world }.

Definition M (A : Type) : Type := state -> A * state.

Definition ret {A} (a : A) : M A := fun s => (a, s).
Definition bind {A B} (c : M A) (k : A -> M B) : M B :=
  fun s => k (fst (c s)) (snd (c s)).

Declare Scope engine_scope.
Delimit Scope engine_scope with M.
Bind Scope engine_scope with M.
Notation "x <- c ;; k" := (bind c (fun x => k))
  (at level 20, c at level 99, k at level 200, only parsing) : engine_scope.
Notation "c ;; k" := (bind c (fun _ => k))
  (at level 100, k at level 200, right associativity, only parsing)
  : engine_scope.
Local Open Scope engine_scope.

Definition get_meta : M ringbuf_meta_t := fun s => (meta s, s).
Definition get_env : M world := fun s => (env s, s).
Definition modify_meta (f : ringbuf_meta_t -> ringbuf_meta_t) : M unit :=
  fun s => (tt, {| meta := f (meta s); env := env s |}).
Definition modify_env (f : world -> world) : M unit :=
  fun s => (tt, {| meta := meta s; env := f (env s) |}).
Definition when (b : bool) (c : M unit) : M unit := if b then c else ret tt.

Definition fopen_existing (path : string) : M (option (list byte)) :=
  w <- get_env ;; ret (fs_files w !! path).
Definition log_blk (e : blk_event) : M unit :=
  modify_env (fun w => with_blk_log (blk_log w ++ [e]) w).

(** ** LFRing.c: metadata *)

Definition save_ringbuf_meta : M Z :=
  m <- get_meta ;;
  w <- get_env ;;
  if nvs_open_readwrite w then
    (modify_env (nvs_set_u32 (nvs_namespace m) "head" (head m)) ;;
     modify_env (nvs_set_u32 (nvs_namespace m) "tail" (tail m)) ;;
     modify_env (nvs_set_u32 (nvs_namespace m) "size" (item_size m)) ;;
     modify_env (nvs_set_u32 (nvs_namespace m) "num" (item_num m)) ;;
     ret LFRB_OK)
  else ret (- LFRB_NVS_ERROR).

Definition reset_ringbuf_meta (itemSize itemNum : Z) : M Z :=
  modify_meta (with_head 0) ;;
  modify_meta (with_tail 0) ;;
  modify_meta (with_item_size itemSize) ;;
  modify_meta (with_item_num itemNum) ;;
  save_ringbuf_meta.

Definition load_from_nvs (key : string)
    (field : ringbuf_meta_t -> Z)
    (store : Z -> ringbuf_meta_t -> ringbuf_meta_t) : M unit :=
  m <- get_meta ;;
  w <- get_env ;;
  modify_meta (store (nvs_get_u32 (nvs_namespace m) key (field m) w)).

Definition init_ringbuf_meta (ns : string) (itemSize itemNum : Z) : M Z :=
  modify_meta (with_nvs_namespace
                 (substring 0 (NVS_KEY_NAME_MAX_SIZE - 1) ns)) ;;
  m <- get_meta ;;
  w <- get_env ;;
  if nvs_open_readonly (nvs_namespace m) w then
    (load_from_nvs "head" head with_head ;;
     load_from_nvs "tail" tail with_tail ;;
     load_from_nvs "size" item_size with_item_size ;;
     load_from_nvs "num" item_num with_item_num ;;
     m <- get_meta ;;
     if negb (item_size m =? itemSize) || negb (item_num m =? itemNum) then
       (status <- reset_ringbuf_meta itemSize itemNum ;;
        if status <? 0 then ret status else ret LFRB_OK)
     else ret LFRB_OK)
  else
    (status <- reset_ringbuf_meta itemSize itemNum ;;
     if status <? 0 then ret status else ret LFRB_OK).

Definition load_ringbuf_meta : M Z :=
  m <- get_meta ;;
  w <- get_env ;;
  if nvs_open_readonly (nvs_namespace m) w then
    (load_from_nvs "head" head with_head ;;
     load_from_nvs "tail" tail with_tail ;;
     ret LFRB_OK)
  else ret (- LFRB_NVS_ERROR).

(** ** LFRing.c: the block file *)

Definition ringbuf_get_path (m : ringbuf_meta_t) : string :=
  substring 0 (LFRB_MAX_PATH - 1)
    (String.append (root m)
       (String.append "/" (String.append (nvs_namespace m) ".bin"))).

Definition reset_ringbuf_lfs : M Z :=
  m <- get_meta ;;
  w <- get_env ;;
  if fs_writable w then
    (modify_env (with_fs_files (<[ringbuf_get_path m := []]> (fs_files w))) ;;
     ret LFRB_OK)
  else ret (- LFRB_LFS_ERROR).

Definition init_ringbuf_lfs (rootdir : string) : M Z :=
  w <- get_env ;;
  if negb (bool_decide (rootdir ∈ fs_dirs w)) then
    ret (- LFRB_ROOT_NOT_FOUND_ERROR)
  else
    (modify_meta (with_root (substring 0 (ESP_VFS_PATH_MAX - 1) rootdir)) ;;
     m <- get_meta ;;
     if (head m =? 0) && (tail m =? 0) then reset_ringbuf_lfs
     else ret LFRB_OK).

Definition ringbuf_write (data : list byte) (num : Z) : M Z :=
  m <- get_meta ;;
  let pos := u32 (head m * item_size m) in
  let path := ringbuf_get_path m in
  log_blk (WriteSlots (head m) num) ;;
  f <- fopen_existing path ;;
  f <- match f with
       | Some c => ret (Some c)
       | None =>
           reset_ringbuf_meta (item_size m) (item_num m) ;;
           reset_ringbuf_lfs ;;
           fopen_existing path
       end ;;
  match f with
  | None => ret (- LFRB_NFILE_ERROR)
  | Some c =>
      m' <- get_meta ;;
      w <- get_env ;;
      let r := fwrite (fs_capacity w) c (fseek_set (s32 pos)) data
                 (item_size m') num in
      modify_env (with_fs_files (<[path := fst r]> (fs_files w))) ;;
      ret (s32 (snd r))
  end.

(** The result pairs the returned count with the bytes stored in
    [out_data]. *)
Definition ringbuf_read (num : Z) : M (Z * list byte) :=
  m <- get_meta ;;
  let pos := u32 (tail m * item_size m) in
  let path := ringbuf_get_path m in
  log_blk (ReadSlots (tail m) num) ;;
  f <- fopen_existing path ;;
  match f with
  | None =>
      reset_ringbuf_meta (item_size m) (item_num m) ;;
      reset_ringbuf_lfs ;;
      ret (0, [])
  | Some c =>
      m' <- get_meta ;;
      let r := fread c (fseek_set (s32 pos)) (item_size m') num in
      ret (s32 (snd r), fst r)
  end.

(** ** LFRing.c: user layer *)

Definition LFRingInit (rootdir ns : string) (itemSize itemNum : Z) : M Z :=
  status <- init_ringbuf_meta ns itemSize itemNum ;;
  if status <? 0 then ret status
  else init_ringbuf_lfs rootdir.

Definition LFRingIsEmpty : M Z :=
  err <- load_ringbuf_meta ;;
  if err <? 0 then ret err
  else (m <- get_meta ;; ret (if tail m =? head m then 1 else 0)).

Section UserWrite.

(** [LFRingWrite] returns [-LFRB_ENUM_EXCEED], an enumerator that
    [ringbuf_error_t] in LFRing.h does not list; its value is a parameter
    of the model. *)
Variable LFRB_ENUM_EXCEED : Z.

Definition LFRingWrite (data : list byte) (num : Z) : M Z :=
  load_ringbuf_meta ;;
  m <- get_meta ;;
  if num >? u32 (item_num m - 1) then ret (- LFRB_ENUM_EXCEED)
  else
    (n <- (if u32 (item_num m - head m) >=? num then
             (r <- ringbuf_write data num ;; ret (s32 (0 + r)))
           else
             (let write_num := s32 (u32 (item_num m - head m)) in
              r1 <- ringbuf_write data (u32 write_num) ;;
              modify_meta (with_head 0) ;;
              m1 <- get_meta ;;
              r2 <- ringbuf_write
                      (drop (Z.to_nat (u32 (write_num * item_size m1))) data)
                      (u32 (num - write_num)) ;;
              ret (s32 (s32 (0 + r1) + r2)))) ;;
     m <- get_meta ;;
     let used := if head m >=? tail m then u32 (head m - tail m)
                 else u32 (item_num m - tail m + head m) in
     modify_meta (with_head (u32 (head m + n) mod item_num m)) ;;
     when (u32 (used + n) >? u32 (item_num m - 1))
       (let overwrite := u32 (used + n - item_num m + 1) in
        modify_meta (with_tail (u32 (tail m + overwrite) mod item_num m))) ;;
     save_ringbuf_meta ;;
     ret n).

End UserWrite.

Definition LFRingRead (num : Z) : M (Z * list byte) :=
  load_ringbuf_meta ;;
  m <- get_meta ;;
  if tail m =? head m then ret (0, [])
  else
    (r <- ringbuf_read num ;;
     m <- get_meta ;;
     modify_meta (with_tail (u32 (tail m + fst r) mod item_num m)) ;;
     save_ringbuf_meta ;;
     ret r).

(** ** Observations on a machine state *)

(** The value stored in NVS under [key] in the buffer's namespace. *)
Definition persisted (key : string) (s : state) : option Z :=
  nvs (env s) !! nvs_namespace (meta s) ≫= (.!! key).

(** The content of the buffer's block file, when the file exists. *)
Definition block_file (s : state) : option (list byte) :=
  fs_files (env s) !! ringbuf_get_path (meta s).

(** The fields of the struct that fix the layout of the buffer. *)
Definition geometry (m : ringbuf_meta_t) : string * string * Z * Z :=
  (root m, nvs_namespace m, item_size m, item_num m).

(** A run of [Write] calls, one per batch of bytes and item count. *)
Fixpoint write_all (LFRB_ENUM_EXCEED : Z) (batches : list (list byte * Z))
    : M (list Z) :=
  match batches with
  | [] => ret []
  | b :: rest =>
      n <- LFRingWrite LFRB_ENUM_EXCEED (fst b) (snd b) ;;
      ns <- write_all LFRB_ENUM_EXCEED rest ;;
      ret (n :: ns)
  end.

(** The number of items in a run of batches. *)
Definition total_items (batches : list (list byte * Z)) : Z :=
  foldr (fun b acc => snd b + acc) 0 batches.

(** The buffer at rest between two calls: what the next call will reload
    from NVS and find in the block file. *)
Definition at_rest (sz N h t : Z) (content : list byte) (s : state) : Prop :=
  item_size (meta s) = sz
  /\ item_num (meta s) = N
  /\ nvs_ready (env s) = true
  /\ persisted "head" s = Some h
  /\ persisted "tail" s = Some t
  /\ block_file s = Some content.

(** Two environments that agree on every NVS namespace other than [ns]
    and on every file other than [path]. *)
Definition same_elsewhere (ns path : string) (w w' : world) : Prop :=
  (forall ns', ns' <> ns -> nvs w' !! ns' = nvs w !! ns')
  /\ (forall p, p <> path -> fs_files w' !! p = fs_files w !! p).

(** ** Closed forms of the metadata layer

    What each function leaves in the struct and in the environment,
    written without the monad; the lemmas below prove them equal to the
    functions above. *)

(** The struct after [load_ringbuf_meta]. *)
Definition loaded_meta (m : ringbuf_meta_t) (w : world) : ringbuf_meta_t :=
  if nvs_open_readonly (nvs_namespace m) w then
    with_tail (nvs_get_u32 (nvs_namespace m) "tail" (tail m) w)
      (with_head (nvs_get_u32 (nvs_namespace m) "head" (head m) w) m)
  else m.

(** The environment after [save_ringbuf_meta]. *)
Definition saved_env (m : ringbuf_meta_t) (w : world) : world :=
  if nvs_ready w then
    nvs_set_u32 (nvs_namespace m) "num" (item_num m)
      (nvs_set_u32 (nvs_namespace m) "size" (item_size m)
         (nvs_set_u32 (nvs_namespace m) "tail" (tail m)
            (nvs_set_u32 (nvs_namespace m) "head" (head m) w)))
  else w.

(** The struct after [reset_ringbuf_meta(meta, itemSize, itemNum)]. *)
Definition reset_to (sz n : Z) (m : ringbuf_meta_t) : ringbuf_meta_t :=
  {| root := root m; nvs_namespace := nvs_namespace m; head := 0; tail := 0;
     item_size := sz; item_num := n |}.

(** The result of [init_ringbuf_meta]. *)
Definition init_meta_result (ns : string) (itemSize itemNum : Z)
    (s : state) : Z * state :=
  let w := env s in
  let m1 := with_nvs_namespace (substring 0 (NVS_KEY_NAME_MAX_SIZE - 1) ns)
              (meta s) in
  let key := nvs_namespace m1 in
  let status := if nvs_ready w then LFRB_OK else - LFRB_NVS_ERROR in
  if nvs_open_readonly key w then
    let m2 := with_item_num (nvs_get_u32 key "num" (item_num m1) w)
                (with_item_size (nvs_get_u32 key "size" (item_size m1) w)
                   (with_tail (nvs_get_u32 key "tail" (tail m1) w)
                      (with_head (nvs_get_u32 key "head" (head m1) w) m1))) in
    if negb (item_size m2 =? itemSize) || negb (item_num m2 =? itemNum) then
      (status,
       {| meta := reset_to itemSize itemNum m2;
          env := saved_env (reset_to itemSize itemNum m2) w |})
    else (LFRB_OK, {| meta := m2; env := w |})
  else
    (status,
     {| meta := reset_to itemSize itemNum m1;
        env := saved_env (reset_to itemSize itemNum m1) w |}).

(** The file system after [reset_ringbuf_lfs]. *)
Definition truncated (m : ringbuf_meta_t) (w : world) : world :=
  if fs_writable w then
    with_fs_files (<[ringbuf_get_path m := []]> (fs_files w)) w
  else w.

(** The result of [init_ringbuf_lfs]. *)
Definition init_lfs_result (rootdir : string) (s : state) : Z * state :=
  if bool_decide (rootdir ∈ fs_dirs (env s)) then
    let m := with_root (substring 0 (ESP_VFS_PATH_MAX - 1) rootdir) (meta s) in
    if (head m =? 0) && (tail m =? 0) then
      (if fs_writable (env s) then LFRB_OK else - LFRB_LFS_ERROR,
       {| meta := m; env := truncated m (env s) |})
    else (LFRB_OK, {| meta := m; env := env s |})
  else (- LFRB_ROOT_NOT_FOUND_ERROR, s).

(** The struct that a first [LFRingInit] builds when NVS holds nothing
    for the namespace. *)
Definition fresh_meta (rootdir ns : string) (itemSize itemNum : Z)
    (m : ringbuf_meta_t) : ringbuf_meta_t :=
  with_root (substring 0 (ESP_VFS_PATH_MAX - 1) rootdir)
    (reset_to itemSize itemNum
       (with_nvs_namespace (substring 0 (NVS_KEY_NAME_MAX_SIZE - 1) ns) m)).

(** ** Closed forms of the block layer *)

(** The environment once a block-layer call is recorded. *)
Definition logged (e : blk_event) (w : world) : world :=
  with_blk_log (blk_log w ++ [e]) w.

(** The state after the recovery sequence
    [reset_ringbuf_meta(meta, meta->item_size, meta->item_num);
     reset_ringbuf_lfs(meta)]. *)
Definition recovered (m : ringbuf_meta_t) (w : world) : state :=
  let m' := reset_to (item_size m) (item_num m) m in
  {| meta := m'; env := truncated m' (saved_env m' w) |}.

(** The result of the [fwrite] that [ringbuf_write] issues at byte offset
    [pos] on a file of content [c]. *)
Definition stored (s : state) (pos : Z) (c data : list byte) (num : Z)
    : Z * state :=
  let r := fwrite (fs_capacity (env s)) c (fseek_set (s32 pos)) data
             (item_size (meta s)) num in
  (s32 (snd r),
   {| meta := meta s;
      env := with_fs_files
               (<[ringbuf_get_path (meta s) := fst r]> (fs_files (env s)))
               (env s) |}).

(** ** Closed form of [LFRingWrite] *)

(** Lines 405-416: where the items go. *)
Definition placed (data : list byte) (num : Z) (s : state) : Z * state :=
  let m := meta s in
  if u32 (item_num m - head m) >=? num then
    let r := ringbuf_write data num s in
    (s32 (0 + fst r), snd r)
  else
    let write_num := s32 (u32 (item_num m - head m)) in
    let r1 := ringbuf_write data (u32 write_num) s in
    let s1 := {| meta := with_head 0 (meta (snd r1)); env := env (snd r1) |} in
    let r2 := ringbuf_write
                (drop (Z.to_nat (u32 (write_num * item_size (meta s1)))) data)
                (u32 (num - write_num)) s1 in
    (s32 (s32 (0 + fst r1) + fst r2), snd r2).

(** Lines 418-430: the head and tail after [n] items were placed. *)
Definition advanced (n : Z) (m : ringbuf_meta_t) : ringbuf_meta_t :=
  let used := if head m >=? tail m then u32 (head m - tail m)
              else u32 (item_num m - tail m + head m) in
  let m1 := with_head (u32 (head m + n) mod item_num m) m in
  if u32 (used + n) >? u32 (item_num m - 1) then
    with_tail (u32 (tail m + u32 (used + n - item_num m + 1)) mod item_num m) m1
  else m1.

(** ** Example states: five slots of four bytes *)

Definition demo_world : world :=
  {| nvs_ready := true; nvs := ∅; fs_dirs := {["root"%string]};
     fs_writable := true; fs_capacity := 1000; fs_files := ∅;
     blk_log := [] |}.

Definition blank_meta : ringbuf_meta_t :=
  {| root := EmptyString; nvs_namespace := EmptyString; head := 0;
     tail := 0; item_size := 0; item_num := 0 |}.

Definition power_on : state := {| meta := blank_meta; env := demo_world |}.

(** A value for the absent enumerator in the examples. *)
Definition demo_exceed : Z := 5.

Definition item (b : byte) : list byte := [b; b; b; b].

(** First [LFRingInit] on an empty NVS partition. *)
Definition fresh5 : state :=
  snd (LFRingInit "root" "root" 4 5 power_on).

(** Three items written: head = 3, tail = 0. *)
Definition three_in : state :=
  snd (LFRingWrite demo_exceed (item x01 ++ item x02 ++ item x03) 3 fresh5).

(** ... and read back: head = 3, tail = 3. *)
Definition drained : state := snd (LFRingRead 3 three_in).

(** Four items written to the fresh buffer: head = 4, tail = 0. *)
Definition full4 : state :=
  snd (LFRingWrite demo_exceed
         (item x01 ++ item x02 ++ item x03 ++ item x04) 4 fresh5).

(** The volume is lost after three items were written: the block file is
    gone and cannot be created again. *)
Definition volume_lost : state :=
  {| meta := meta three_in;
     env := {| nvs_ready := true; nvs := nvs (env three_in);
               fs_dirs := ∅; fs_writable := false; fs_capacity := 1000;
               fs_files := ∅; blk_log := [] |} |}.

(** A restart after the buffer was drained at slot 3: the struct is blank
    again, NVS and the block file are as [drained] left them. *)
Definition restarted : state := {| meta := blank_meta; env := env drained |}.


(** The block file was deleted after three items were written; the volume
    is still writable. *)
Definition file_deleted : state :=
  {| meta := meta three_in; env := with_fs_files ∅ (env three_in) |}.

(** ** Proof automation *)

(** Stepping through the binds of a monadic definition. *)
Ltac run_step :=
  unfold log_blk, fopen_existing, when, load_from_nvs;
  unfold bind, ret, get_meta, get_env, modify_meta, modify_env;
  cbn [fst snd meta env].

(** ** Machine-integer facts *)

Lemma u32_id x : 0 <= x < 2 ^ 32 -> u32 x = x.
Proof. intros H. unfold u32. apply Z.mod_small. lia. Qed.

Lemma s32_id x : - 2 ^ 31 <= x < 2 ^ 31 -> s32 x = x.
Proof. intros H. unfold s32. rewrite Z.mod_small; lia. Qed.

Lemma u32_s32 x : u32 (s32 x) = u32 x.
Proof.
  unfold u32, s32.
  replace ((x + 2 ^ 31) mod 2 ^ 32 - 2 ^ 31)
    with ((x + 2 ^ 31) mod 2 ^ 32 + (- 2 ^ 31)) by lia.
  rewrite Zplus_mod_idemp_l. f_equal. lia.
Qed.

Lemma u32_sub_s32 a x : u32 (a - s32 x) = u32 (a - x).
Proof.
  unfold u32. rewrite Zminus_mod. fold (u32 (s32 x)). rewrite u32_s32.
  unfold u32. rewrite <- Zminus_mod. reflexivity.
Qed.

(** ** Closed forms and frame properties of the metadata layer *)

Lemma load_ringbuf_meta_state s :
  snd (load_ringbuf_meta s)
  = {| meta := loaded_meta (meta s) (env s); env := env s |}.
Proof.
  unfold load_ringbuf_meta, loaded_meta, bind, get_meta, get_env; simpl.
  destruct (nvs_open_readonly _ _); simpl; [reflexivity | by destruct s].
Qed.

Lemma save_ringbuf_meta_state s :
  snd (save_ringbuf_meta s)
  = {| meta := meta s; env := saved_env (meta s) (env s) |}.
Proof.
  unfold save_ringbuf_meta, saved_env, nvs_open_readwrite, bind, get_meta,
    get_env; simpl.
  destruct (nvs_ready (env s)); simpl; [reflexivity | by destruct s].
Qed.

Lemma save_ringbuf_meta_status s :
  fst (save_ringbuf_meta s)
  = if nvs_ready (env s) then LFRB_OK else - LFRB_NVS_ERROR.
Proof.
  unfold save_ringbuf_meta, nvs_open_readwrite, bind, get_meta, get_env;
    simpl.
  by destruct (nvs_ready (env s)).
Qed.

Lemma reset_ringbuf_meta_state sz n s :
  snd (reset_ringbuf_meta sz n s)
  = {| meta := reset_to sz n (meta s);
       env := saved_env (reset_to sz n (meta s)) (env s) |}.
Proof.
  unfold reset_ringbuf_meta, bind. rewrite save_ringbuf_meta_state.
  reflexivity.
Qed.

Lemma reset_ringbuf_meta_status sz n s :
  fst (reset_ringbuf_meta sz n s)
  = if nvs_ready (env s) then LFRB_OK else - LFRB_NVS_ERROR.
Proof.
  unfold reset_ringbuf_meta, bind. rewrite save_ringbuf_meta_status.
  reflexivity.
Qed.

Lemma loaded_meta_geometry m w :
  root (loaded_meta m w) = root m
  /\ nvs_namespace (loaded_meta m w) = nvs_namespace m
  /\ item_size (loaded_meta m w) = item_size m
  /\ item_num (loaded_meta m w) = item_num m.
Proof. unfold loaded_meta. by destruct (nvs_open_readonly _ _). Qed.

Lemma saved_env_frame m w :
  nvs_ready (saved_env m w) = nvs_ready w
  /\ fs_dirs (saved_env m w) = fs_dirs w
  /\ fs_writable (saved_env m w) = fs_writable w
  /\ fs_capacity (saved_env m w) = fs_capacity w
  /\ fs_files (saved_env m w) = fs_files w
  /\ blk_log (saved_env m w) = blk_log w.
Proof.
  unfold saved_env. destruct (nvs_ready w) eqn:E; repeat split; simpl; auto.
Qed.

(** ** Closed forms and frame properties of the block layer *)

Lemma reset_ringbuf_lfs_state s :
  snd (reset_ringbuf_lfs s)
  = {| meta := meta s; env := truncated (meta s) (env s) |}.
Proof.
  unfold reset_ringbuf_lfs, truncated. run_step.
  destruct (fs_writable (env s)); [reflexivity | by destruct s].
Qed.

Lemma reset_ringbuf_lfs_status s :
  fst (reset_ringbuf_lfs s)
  = if fs_writable (env s) then LFRB_OK else - LFRB_LFS_ERROR.
Proof.
  unfold reset_ringbuf_lfs. run_step. by destruct (fs_writable (env s)).
Qed.

Lemma ringbuf_write_run data num s :
  ringbuf_write data num s
  = let pos := u32 (head (meta s) * item_size (meta s)) in
    let w1 := logged (WriteSlots (head (meta s)) num) (env s) in
    match block_file s with
    | Some c => stored {| meta := meta s; env := w1 |} pos c data num
    | None =>
        let s' := recovered (meta s) w1 in
        match block_file s' with
        | Some c => stored s' pos c data num
        | None => (- LFRB_NFILE_ERROR, s')
        end
    end.
Proof.
  unfold ringbuf_write, block_file. run_step.
  change (fs_files (with_blk_log _ (env s))) with (fs_files (env s)).
  destruct (fs_files (env s) !! ringbuf_get_path (meta s)) as [c|];
    [reflexivity|].
  cbn zeta. rewrite reset_ringbuf_meta_state, reset_ringbuf_lfs_state.
  cbn [fst snd meta env].
  fold (logged (WriteSlots (head (meta s)) num) (env s)).
  change (ringbuf_get_path (meta s))
    with (ringbuf_get_path (meta (recovered (meta s)
            (logged (WriteSlots (head (meta s)) num) (env s))))).
  fold (recovered (meta s) (logged (WriteSlots (head (meta s)) num) (env s))).
  by destruct (fs_files _ !! _).
Qed.

Lemma ringbuf_read_run num s :
  ringbuf_read num s
  = let pos := u32 (tail (meta s) * item_size (meta s)) in
    let w1 := logged (ReadSlots (tail (meta s)) num) (env s) in
    match block_file s with
    | Some c =>
        let r := fread c (fseek_set (s32 pos)) (item_size (meta s)) num in
        ((s32 (snd r), fst r), {| meta := meta s; env := w1 |})
    | None => ((0, []), recovered (meta s) w1)
    end.
Proof.
  unfold ringbuf_read, block_file. run_step.
  change (fs_files (with_blk_log _ (env s))) with (fs_files (env s)).
  destruct (fs_files (env s) !! ringbuf_get_path (meta s)) as [c|];
    [reflexivity|].
  cbn zeta. rewrite reset_ringbuf_meta_state, reset_ringbuf_lfs_state.
  reflexivity.
Qed.

Lemma truncated_frame m w :
  nvs_ready (truncated m w) = nvs_ready w
  /\ nvs (truncated m w) = nvs w
  /\ fs_dirs (truncated m w) = fs_dirs w
  /\ fs_writable (truncated m w) = fs_writable w
  /\ fs_capacity (truncated m w) = fs_capacity w
  /\ blk_log (truncated m w) = blk_log w.
Proof.
  unfold truncated. destruct (fs_writable w) eqn:E; repeat split; simpl; auto.
Qed.

Lemma recovered_log m w : blk_log (env (recovered m w)) = blk_log w.
Proof.
  unfold recovered; cbn [env].
  destruct (truncated_frame (reset_to (item_size m) (item_num m) m)
              (saved_env (reset_to (item_size m) (item_num m) m) w))
    as (_ & _ & _ & _ & _ & ->).
  apply saved_env_frame.
Qed.

Lemma stored_meta s pos c data num :
  meta (snd (stored s pos c data num)) = meta s.
Proof. reflexivity. Qed.

Lemma stored_log s pos c data num :
  blk_log (env (snd (stored s pos c data num))) = blk_log (env s).
Proof. reflexivity. Qed.

(** Every call of [ringbuf_write] is one block write at the head it finds. *)
Lemma ringbuf_write_log data num s :
  blk_log (env (snd (ringbuf_write data num s)))
  = blk_log (env s) ++ [WriteSlots (head (meta s)) num].
Proof.
  rewrite ringbuf_write_run; cbn zeta.
  destruct (block_file s); [reflexivity|].
  destruct (block_file (recovered _ _)).
  - rewrite stored_log. apply recovered_log.
  - apply recovered_log.
Qed.

Lemma ringbuf_read_log num s :
  blk_log (env (snd (ringbuf_read num s)))
  = blk_log (env s) ++ [ReadSlots (tail (meta s)) num].
Proof.
  rewrite ringbuf_read_run; cbn zeta.
  destruct (block_file s); [reflexivity | apply recovered_log].
Qed.

(** The struct after [ringbuf_write]: untouched, or reset by recovery. *)
Lemma ringbuf_write_meta data num s :
  meta (snd (ringbuf_write data num s))
  = match block_file s with
    | Some _ => meta s
    | None => reset_to (item_size (meta s)) (item_num (meta s)) (meta s)
    end.
Proof.
  rewrite ringbuf_write_run; cbn zeta.
  destruct (block_file s); [reflexivity|].
  by destruct (block_file (recovered _ _)).
Qed.

Lemma ringbuf_read_meta num s :
  meta (snd (ringbuf_read num s))
  = match block_file s with
    | Some _ => meta s
    | None => reset_to (item_size (meta s)) (item_num (meta s)) (meta s)
    end.
Proof.
  rewrite ringbuf_read_run; cbn zeta. by destruct (block_file s).
Qed.

(** ** Closed forms of the user layer *)

Lemma LFRingWrite_run E data num s :
  LFRingWrite E data num s
  = let s1 := {| meta := loaded_meta (meta s) (env s); env := env s |} in
    if num >? u32 (item_num (meta s1) - 1) then (- E, s1)
    else
      let r := placed data num s1 in
      let m' := advanced (fst r) (meta (snd r)) in
      (fst r, {| meta := m'; env := saved_env m' (env (snd r)) |}).
Proof.
  unfold LFRingWrite. unfold bind at 1. rewrite load_ringbuf_meta_state.
  run_step. cbn zeta.
  destruct (num >? _); [reflexivity|].
  unfold placed, advanced; cbn [meta env]; cbn zeta.
  destruct (u32 _ >=? num); cbn [fst snd];
    destruct (u32 _ >? u32 _); cbn [fst snd meta env];
    rewrite save_ringbuf_meta_state; reflexivity.
Qed.

Lemma LFRingRead_run num s :
  LFRingRead num s
  = let s1 := {| meta := loaded_meta (meta s) (env s); env := env s |} in
    if tail (meta s1) =? head (meta s1) then ((0, []), s1)
    else
      let r := ringbuf_read num s1 in
      let m := meta (snd r) in
      let m' := with_tail (u32 (tail m + fst (fst r)) mod item_num m) m in
      (fst r, {| meta := m'; env := saved_env m' (env (snd r)) |}).
Proof.
  unfold LFRingRead. unfold bind at 1. rewrite load_ringbuf_meta_state.
  run_step. cbn zeta.
  destruct (tail _ =? head _); [reflexivity|].
  rewrite save_ringbuf_meta_state. reflexivity.
Qed.

(** ** The layout fields are never changed *)

Lemma ringbuf_write_geometry data num s :
  geometry (meta (snd (ringbuf_write data num s))) = geometry (meta s).
Proof. rewrite ringbuf_write_meta. by destruct (block_file s). Qed.

Lemma ringbuf_read_geometry num s :
  geometry (meta (snd (ringbuf_read num s))) = geometry (meta s).
Proof. rewrite ringbuf_read_meta. by destruct (block_file s). Qed.

Lemma loaded_geometry m w : geometry (loaded_meta m w) = geometry m.
Proof. unfold loaded_meta. by destruct (nvs_open_readonly _ _). Qed.

Lemma advanced_geometry n m : geometry (advanced n m) = geometry m.
Proof. unfold advanced; cbn zeta. by destruct (_ >? _). Qed.

Lemma placed_geometry data num s :
  geometry (meta (snd (placed data num s))) = geometry (meta s).
Proof.
  unfold placed; cbn zeta. destruct (_ >=? _); cbn [snd].
  - apply ringbuf_write_geometry.
  - rewrite ringbuf_write_geometry; cbn [meta].
    change (geometry (with_head 0 ?m)) with (geometry m).
    apply ringbuf_write_geometry.
Qed.

Lemma LFRingWrite_geometry E data num s :
  geometry (meta (snd (LFRingWrite E data num s))) = geometry (meta s).
Proof.
  rewrite LFRingWrite_run; cbn zeta; cbn [meta env].
  destruct (_ >? _); cbn [snd meta].
  - apply loaded_geometry.
  - rewrite advanced_geometry, placed_geometry. apply loaded_geometry.
Qed.

Lemma LFRingRead_geometry num s :
  geometry (meta (snd (LFRingRead num s))) = geometry (meta s).
Proof.
  rewrite LFRingRead_run; cbn zeta; cbn [meta env].
  destruct (_ =? _); cbn [snd meta].
  - apply loaded_geometry.
  - change (geometry (with_tail ?v ?m)) with (geometry m).
    rewrite ringbuf_read_geometry. apply loaded_geometry.
Qed.

Lemma nvs_set_u32_lookup ns key v w :
  nvs (nvs_set_u32 ns key v w) !! ns
  = Some (<[key := v]> (default ∅ (nvs w !! ns))).
Proof. unfold nvs_set_u32; cbn [nvs with_nvs]. apply lookup_insert_eq. Qed.

Lemma saved_env_namespace m w :
  nvs_ready w = true ->
  nvs (saved_env m w) !! nvs_namespace m
  = Some (<["num" := item_num m]> (<["size" := item_size m]>
      (<["tail" := tail m]> (<["head" := head m]>
         (default ∅ (nvs w !! nvs_namespace m)))))).
Proof.
  intros Hr. unfold saved_env. rewrite Hr.
  rewrite nvs_set_u32_lookup. do 3 f_equal.
  rewrite nvs_set_u32_lookup; cbn [default]. f_equal.
  rewrite nvs_set_u32_lookup; cbn [default]. f_equal.
  rewrite nvs_set_u32_lookup; cbn [default]. reflexivity.
Qed.

(** What [save_ringbuf_meta] leaves in NVS when the partition is usable. *)
Lemma saved_env_persisted m w (st : state) :
  nvs_ready w = true ->
  nvs (env st) = nvs (saved_env m w) ->
  nvs_namespace (meta st) = nvs_namespace m ->
  persisted "head" st = Some (head m)
  /\ persisted "tail" st = Some (tail m)
  /\ persisted "size" st = Some (item_size m)
  /\ persisted "num" st = Some (item_num m).
Proof.
  intros Hr Hnvs Hns. unfold persisted. rewrite Hnvs, Hns.
  rewrite saved_env_namespace by done. cbn [mbind option_bind].
  repeat split; by simplify_map_eq.
Qed.

Lemma recovered_nvs m w :
  nvs (env (recovered m w))
  = nvs (saved_env (reset_to (item_size m) (item_num m) m) w).
Proof. unfold recovered; cbn [env]. apply truncated_frame. Qed.

Lemma init_ringbuf_meta_run ns sz n s :
  init_ringbuf_meta ns sz n s = init_meta_result ns sz n s.
Proof.
  unfold init_ringbuf_meta, init_meta_result. run_step. cbn zeta.
  destruct (nvs_open_readonly _ _).
  - cbn [nvs_namespace with_head with_tail with_item_size with_item_num
         with_nvs_namespace head tail item_size item_num].
    destruct (negb _ || negb _).
    + rewrite reset_ringbuf_meta_status.
      rewrite reset_ringbuf_meta_state. cbn [meta env].
      by destruct (nvs_ready (env s)).
    + reflexivity.
  - rewrite reset_ringbuf_meta_status.
    rewrite reset_ringbuf_meta_state. cbn [meta env].
    by destruct (nvs_ready (env s)).
Qed.

Lemma init_ringbuf_lfs_run rootdir s :
  init_ringbuf_lfs rootdir s = init_lfs_result rootdir s.
Proof.
  unfold init_ringbuf_lfs, init_lfs_result. run_step.
  destruct (bool_decide _); cbn [negb]; [|reflexivity].
  cbn zeta. destruct (_ && _); [|reflexivity].
  rewrite (surjective_pairing (reset_ringbuf_lfs _)).
  rewrite reset_ringbuf_lfs_status, reset_ringbuf_lfs_state. reflexivity.
Qed.

Lemma LFRingInit_run rootdir ns sz n s :
  LFRingInit rootdir ns sz n s
  = let r := init_meta_result ns sz n s in
    if fst r <? 0 then r else init_lfs_result rootdir (snd r).
Proof.
  unfold LFRingInit. run_step. rewrite init_ringbuf_meta_run. cbn zeta.
  destruct (_ <? 0).
  - by destruct (init_meta_result ns sz n s).
  - apply init_ringbuf_lfs_run.
Qed.

Lemma LFRingIsEmpty_run s :
  LFRingIsEmpty s
  = if nvs_open_readonly (nvs_namespace (meta s)) (env s) then
      let m := loaded_meta (meta s) (env s) in
      (if tail m =? head m then 1 else 0, {| meta := m; env := env s |})
    else (- LFRB_NVS_ERROR, s).
Proof.
  unfold LFRingIsEmpty, load_ringbuf_meta, loaded_meta. run_step.
  destruct (nvs_open_readonly _ _); reflexivity.
Qed.
(** ** A first initialisation *)

Lemma init_meta_result_fresh ns sz n m0 w :
  nvs w !! substring 0 (NVS_KEY_NAME_MAX_SIZE - 1) ns = None ->
  init_meta_result ns sz n {| meta := m0; env := w |}
  = let m := reset_to sz n
               (with_nvs_namespace
                  (substring 0 (NVS_KEY_NAME_MAX_SIZE - 1) ns) m0) in
    (if nvs_ready w then LFRB_OK else - LFRB_NVS_ERROR,
     {| meta := m; env := saved_env m w |}).
Proof.
  intros Hfresh. unfold init_meta_result.
  cbn zeta; cbn [meta env nvs_namespace with_nvs_namespace].
  assert (nvs_open_readonly (substring 0 (NVS_KEY_NAME_MAX_SIZE - 1) ns) w
          = false) as ->; [|reflexivity].
  unfold nvs_open_readonly. rewrite Hfresh.
  rewrite bool_decide_eq_false_2 by (by intros [? ?]).
  apply andb_false_r.
Qed.

Lemma LFRingInit_fresh rootdir ns sz n m0 w :
  nvs w !! substring 0 (NVS_KEY_NAME_MAX_SIZE - 1) ns = None ->
  fst (LFRingInit rootdir ns sz n {| meta := m0; env := w |}) = LFRB_OK ->
  nvs_ready w = true
  /\ rootdir ∈ fs_dirs w
  /\ fs_writable w = true
  /\ snd (LFRingInit rootdir ns sz n {| meta := m0; env := w |})
     = {| meta := fresh_meta rootdir ns sz n m0;
          env := truncated (fresh_meta rootdir ns sz n m0)
                   (saved_env (fresh_meta rootdir ns sz n m0) w) |}.
Proof.
  intros Hfresh. rewrite LFRingInit_run, init_meta_result_fresh by done.
  cbn zeta; cbn [fst snd].
  destruct (nvs_ready w) eqn:Hready; [|discriminate].
  cbn [Z.ltb Z.compare LFRB_OK]. unfold init_lfs_result. cbn [meta env].
  destruct (saved_env_frame
              (reset_to sz n
                 (with_nvs_namespace
                    (substring 0 (NVS_KEY_NAME_MAX_SIZE - 1) ns) m0)) w)
    as (_ & -> & -> & _).
  destruct (bool_decide (rootdir ∈ fs_dirs w)) eqn:Hroot; [|discriminate].
  apply bool_decide_eq_true_1 in Hroot.
  cbn zeta. cbn [head tail with_root reset_to Z.eqb andb fst snd].
  destruct (fs_writable w) eqn:Hw; [|discriminate].
  intros _. repeat split; auto.
Qed.

(** Reloading what was persisted. *)
Lemma loaded_meta_persisted s h t :
  nvs_ready (env s) = true ->
  persisted "head" s = Some h ->
  persisted "tail" s = Some t ->
  nvs_open_readonly (nvs_namespace (meta s)) (env s) = true
  /\ loaded_meta (meta s) (env s)
     = with_tail (u32 t) (with_head (u32 h) (meta s)).
Proof.
  unfold persisted, loaded_meta, nvs_open_readonly, nvs_get_u32.
  intros -> Hh Ht.
  destruct (nvs (env s) !! nvs_namespace (meta s)) as [kv|]; [|discriminate].
  cbn [mbind option_bind] in Hh, Ht.
  rewrite bool_decide_eq_true_2 by eauto. cbn [andb].
  split; [reflexivity|]. by rewrite Hh, Ht.
Qed.

Lemma fresh_state_persisted rootdir ns sz n m0 w :
  nvs_ready w = true ->
  let m := fresh_meta rootdir ns sz n m0 in
  let s := {| meta := m; env := truncated m (saved_env m w) |} in
  nvs_ready (env s) = true
  /\ persisted "head" s = Some 0
  /\ persisted "tail" s = Some 0
  /\ persisted "size" s = Some sz
  /\ persisted "num" s = Some n.
Proof.
  intros Hready m s.
  destruct (truncated_frame m (saved_env m w)) as (Hr & Hnvs & _).
  destruct (saved_env_frame m w) as (Hr' & _).
  split; [cbn [env s]; congruence|].
  apply (saved_env_persisted m w s); auto.
Qed.

Lemma init_meta_result_files ns sz n s :
  fs_files (env (snd (init_meta_result ns sz n s))) = fs_files (env s).
Proof.
  unfold init_meta_result; cbn zeta.
  destruct (nvs_open_readonly _ _); [destruct (negb _ || negb _)|];
    cbn [snd env]; try reflexivity; apply saved_env_frame.
Qed.

(** ** Reading *)

Lemma fread_bounds c p size nmemb :
  0 < size -> 0 <= nmemb ->
  0 <= snd (fread c p size nmemb) <= nmemb
  /\ snd (fread c p size nmemb) * size <= Z.of_nat (length c - p).
Proof.
  intros Hsz Hn. unfold fread; cbn [snd].
  destruct (Z.eqb_spec size 0); [lia|].
  pose proof (Z.div_pos (Z.of_nat (length c - p)) size ltac:(lia) Hsz).
  pose proof (Z.mul_div_le (Z.of_nat (length c - p)) size Hsz).
  split; [lia|].
  transitivity (Z.of_nat (length c - p) `div` size * size); [|lia].
  apply Z.mul_le_mono_nonneg_r; lia.
Qed.

(** [LFRingRead] on a non-empty buffer whose block file opens. *)
Lemma LFRingRead_open num s c :
  let m := loaded_meta (meta s) (env s) in
  let N := item_num m in
  let t := tail m in
  let sz := item_size m in
  let r := fread c (Z.to_nat (t * sz)) sz num in
  tail m <> head m ->
  block_file s = Some c ->
  0 < sz -> 0 <= t < N -> t * sz < 2 ^ 31 -> N < 2 ^ 32 ->
  Z.of_nat (length c) < 2 ^ 31 -> 0 <= num ->
  LFRingRead num s
  = ((snd r, fst r),
     {| meta := with_tail ((t + snd r) mod N) m;
        env := saved_env (with_tail ((t + snd r) mod N) m)
                 (logged (ReadSlots t num) (env s)) |}).
Proof.
  intros m N t sz r Hne Hfile Hsz Ht Hpos HN Hlen Hnum.
  pose proof (loaded_geometry (meta s) (env s)) as Hg.
  unfold geometry in Hg. injection Hg as Hroot Hns Hsize Hnumeq.
  assert (Hfile' : block_file {| meta := m; env := env s |} = Some c).
  { unfold block_file, ringbuf_get_path in *; cbn [meta env].
    subst m. by rewrite Hroot, Hns. }
  destruct (fread_bounds c (Z.to_nat (t * sz)) sz num Hsz Hnum)
    as [Hn Hfit]. fold r in Hn, Hfit.
  assert (Hn31 : snd r < 2 ^ 31) by nia.
  rewrite LFRingRead_run; cbn zeta; cbn [meta env]. fold m.
  destruct (Z.eqb_spec (tail m) (head m)) as [?|_]; [done|].
  rewrite ringbuf_read_run, Hfile'; cbn zeta; cbn [fst snd meta env].
  fold t sz N. rewrite (u32_id (t * sz)), (s32_id (t * sz)) by lia.
  unfold fseek_set.
  destruct (Z.ltb_spec (t * sz) 0) as [?|_]; [lia|]. fold r.
  rewrite (s32_id (snd r)), (u32_id (t + snd r)) by nia.
  reflexivity.
Qed.

(** ** Writing without a wrap *)

Lemma pwrite_append c d : pwrite c (length c) d = c ++ d.
Proof.
  unfold pwrite. destruct d as [|b d]; [by rewrite app_nil_r|].
  rewrite take_ge, Nat.sub_diag, drop_ge by lia.
  cbn [replicate app]. by rewrite app_nil_r.
Qed.

Lemma fwrite_full cap c0 p d sz c :
  0 < sz -> 0 <= c ->
  Z.of_nat (length d) = c * sz ->
  (p + length d <= cap)%nat ->
  fwrite cap c0 p d sz c = (pwrite c0 p d, c).
Proof.
  intros Hsz Hc Hlen Hcap. unfold fwrite.
  rewrite (take_ge d (Z.to_nat (sz * c))) by lia.
  rewrite take_ge by lia.
  destruct (Z.eqb_spec sz 0) as [?|_]; [lia|].
  rewrite Hlen, Z.div_mul by lia. reflexivity.
Qed.

(** The occupancy that lines 420-422 compute is [(head - tail) mod N]. *)
Lemma used_mod N h t :
  0 <= h < N -> 0 <= t < N -> N < 2 ^ 32 ->
  (if h >=? t then u32 (h - t) else u32 (N - t + h)) = (h - t + N) mod N.
Proof.
  intros Hh Ht HN. rewrite Z.geb_leb.
  destruct (Z.leb_spec t h).
  - rewrite u32_id by lia.
    replace (h - t + N) with (h - t + 1 * N) by lia.
    rewrite Z_mod_plus_full, Z.mod_small; lia.
  - rewrite u32_id by lia. rewrite Z.mod_small; lia.
Qed.

(** Lines 418-430 on in-range indices: ring arithmetic on the head and
    eviction on the tail. *)
Lemma advanced_ring n m :
  let N := item_num m in
  let used := (head m - tail m + N) mod N in
  0 <= head m < N -> 0 <= tail m < N -> 0 <= n < 2 ^ 31 -> N < 2 ^ 31 ->
  advanced n m
  = with_tail (if used + n >? N - 1
               then (tail m + (used + n - (N - 1))) mod N else tail m)
      (with_head ((head m + n) mod N) m).
Proof.
  intros N used Hh Ht Hn HN. unfold advanced; cbn zeta. fold N.
  rewrite used_mod by lia. fold used.
  assert (0 <= used < N) by (apply Z.mod_pos_bound; lia).
  rewrite (u32_id (used + n)), (u32_id (N - 1)), (u32_id (head m + n)) by lia.
  destruct (Z.gtb_spec (used + n) (N - 1)); [|reflexivity].
  rewrite (u32_id (used + n - N + 1)) by lia.
  rewrite u32_id by lia.
  replace (used + n - N + 1) with (used + n - (N - 1)) by lia.
  reflexivity.
Qed.

(** An accepted write that fits between the head and the end of the file,
    on a volume that takes all its bytes: the head advances by the count
    modulo [N], the tail moves past the evicted items, and the bytes land
    at the old head. *)
Lemma LFRingWrite_contiguous E d c s sz N h t content :
  at_rest sz N h t content s ->
  0 < sz -> N * sz < 2 ^ 31 -> 0 <= h < N -> 0 <= t < N ->
  0 <= c <= N - 1 -> h + c <= N ->
  Z.of_nat (length d) = c * sz ->
  h * sz + c * sz <= Z.of_nat (fs_capacity (env s)) ->
  let used := (h - t + N) mod N in
  let t' := if used + c >? N - 1 then (t + (used + c - (N - 1))) mod N
            else t in
  fst (LFRingWrite E d c s) = c
  /\ at_rest sz N ((h + c) mod N) t' (pwrite content (Z.to_nat (h * sz)) d)
       (snd (LFRingWrite E d c s))
  /\ fs_capacity (env (snd (LFRingWrite E d c s))) = fs_capacity (env s)
  /\ blk_log (env (snd (LFRingWrite E d c s)))
     = blk_log (env s) ++ [WriteSlots h c].
Proof.
  intros (Hsz & HN & Hready & Hh & Ht & Hfile) Hszpos Hbytes Hhr Htr Hc Hfit
    Hlen Hcap used t'.
  assert (HN31 : N < 2 ^ 31) by nia.
  assert (Hpos : h * sz < 2 ^ 31) by nia.
  destruct (loaded_meta_persisted s h t Hready Hh Ht) as [_ Hload].
  rewrite !u32_id in Hload by lia.
  rewrite LFRingWrite_run, Hload; cbn zeta.
  cbn [meta env item_num head tail with_head with_tail]. rewrite HN.
  rewrite (u32_id (N - 1)) by lia.
  destruct (Z.gtb_spec c (N - 1)) as [?|_]; [lia|].
  unfold placed; cbn zeta.
  cbn [meta env item_num head tail with_head with_tail]. rewrite HN.
  rewrite (u32_id (N - h)) by lia. rewrite Z.geb_leb.
  destruct (Z.leb_spec c (N - h)) as [_|?]; [|lia].
  rewrite ringbuf_write_run; cbn zeta.
  change (block_file {| meta := with_tail t (with_head h (meta s));
                        env := env s |}) with (block_file s).
  rewrite Hfile. unfold stored.
  cbn [meta env item_size head with_head with_tail fs_capacity logged
       with_blk_log]. rewrite Hsz.
  rewrite (u32_id (h * sz)), (s32_id (h * sz)) by lia.
  unfold fseek_set. destruct (Z.ltb_spec (h * sz) 0) as [?|_]; [lia|].
  rewrite (fwrite_full _ content _ d sz c) by lia.
  cbn [fst snd meta env]. rewrite !(s32_id c), Z.add_0_l, (s32_id c) by lia.
  rewrite advanced_ring;
    cbn [item_num head tail with_head with_tail]; rewrite ?HN; try lia.
  fold used t'.
  set (m' := with_tail t' (with_head ((h + c) mod N)
                             (with_tail t (with_head h (meta s))))).
  set (w' := with_fs_files _ _).
  destruct (saved_env_frame m' w')
    as (Hready' & _ & _ & Hcap' & Hfiles' & Hlog').
  split; [reflexivity|].
  split; [|split; [by rewrite Hcap' | by rewrite Hlog']].
  destruct (saved_env_persisted m' w' {| meta := m'; env := saved_env m' w' |})
    as (Hh' & Ht' & _); auto.
  repeat split; auto.
  - cbn [env]. by rewrite Hready'.
  - unfold block_file; cbn [meta env]. rewrite Hfiles'.
    apply lookup_insert_eq.
Qed.

(** ** Filling a fresh buffer and reading it back *)

Lemma write_all_cons E b rest s :
  write_all E (b :: rest) s
  = (fst (LFRingWrite E (fst b) (snd b) s)
       :: fst (write_all E rest (snd (LFRingWrite E (fst b) (snd b) s))),
     snd (write_all E rest (snd (LFRingWrite E (fst b) (snd b) s)))).
Proof. reflexivity. Qed.

Lemma total_items_nonneg sz batches :
  Forall (fun b => 0 <= snd b /\ Z.of_nat (length (fst b)) = snd b * sz)
    batches ->
  0 <= total_items batches.
Proof.
  induction 1 as [|b rest [Hb _] _ IH]; cbn [total_items foldr]; [lia|].
  fold (total_items rest). lia.
Qed.

(** While the items written so far stay below the usable capacity, the
    block file holds exactly their bytes, the head counts them and the
    tail stays at slot 0. *)
Lemma write_all_fills E sz N batches :
  0 < sz -> N * sz < 2 ^ 31 ->
  Forall (fun b => 0 <= snd b /\ Z.of_nat (length (fst b)) = snd b * sz)
    batches ->
  forall s k content,
    at_rest sz N k 0 content s ->
    Z.of_nat (length content) = k * sz ->
    N * sz <= Z.of_nat (fs_capacity (env s)) ->
    0 <= k -> k + total_items batches <= N - 1 ->
    fst (write_all E batches s) = map snd batches
    /\ at_rest sz N (k + total_items batches) 0
         (content ++ concat (map fst batches)) (snd (write_all E batches s))
    /\ Z.of_nat (length (content ++ concat (map fst batches)))
       = (k + total_items batches) * sz.
Proof.
  intros Hsz Hbytes Hall.
  induction Hall as [|b rest [Hc Hlen] Hrest IH]; intros s k content Hs Hcontent
    Hcap Hk Htotal.
  - cbn [write_all total_items foldr map concat ret fst snd].
    rewrite app_nil_r, Z.add_0_r. auto.
  - cbn [total_items foldr] in Htotal |- *. fold (total_items rest) in *.
    pose proof (total_items_nonneg sz rest Hrest) as Hnn.
    destruct (LFRingWrite_contiguous E (fst b) (snd b) s sz N k 0 content)
      as (Hret & Hs' & Hcap' & _); try assumption; try nia.
    cbv zeta in Hs'.
    replace ((k - 0 + N) mod N) with k in Hs'
      by (replace (k - 0 + N) with (k + 1 * N) by lia;
          rewrite Z_mod_plus_full, Z.mod_small; lia).
    destruct (Z.gtb_spec (k + snd b) (N - 1)) as [?|_] in Hs'; [lia|].
    rewrite (Z.mod_small (k + snd b) N) in Hs' by lia.
    replace (Z.to_nat (k * sz)) with (length content) in Hs' by lia.
    rewrite pwrite_append in Hs'.
    destruct (IH (snd (LFRingWrite E (fst b) (snd b) s)) (k + snd b)
                (content ++ fst b)) as (Hrets & Hfinal & Hlenf);
      try assumption; try lia.
    { rewrite length_app. lia. }
    rewrite write_all_cons; cbn [fst snd map concat].
    rewrite Hret, Hrets.
    rewrite <- !app_assoc in Hfinal, Hlenf.
    rewrite Z.add_assoc. auto.
Qed.

Lemma fread_all c sz k :
  0 < sz -> Z.of_nat (length c) = k * sz -> fread c 0 sz k = (c, k).
Proof.
  intros Hsz Hlen. unfold fread.
  destruct (Z.eqb_spec sz 0) as [?|_]; [lia|].
  rewrite Nat.sub_0_r, Hlen, Z.div_mul, Z.min_id by lia.
  rewrite drop_0, take_ge by lia. reflexivity.
Qed.

Lemma LFRingRead_drains sz N k content s :
  0 < sz -> N * sz < 2 ^ 31 -> 0 <= k <= N - 1 ->
  at_rest sz N k 0 content s ->
  Z.of_nat (length content) = k * sz ->
  fst (LFRingRead k s) = (k, content).
Proof.
  intros Hsz Hbytes Hk (Hsize & HN & Hready & Hh & Ht & Hfile) Hlen.
  destruct (loaded_meta_persisted s k 0 Hready Hh Ht) as [_ Hload].
  rewrite !u32_id in Hload by nia.
  destruct (Z.eq_dec k 0) as [->|Hpos].
  - rewrite LFRingRead_run, Hload; cbn zeta.
    cbn [meta tail head with_tail with_head Z.eqb fst].
    destruct content; [reflexivity | discriminate].
  - rewrite (LFRingRead_open k s content); rewrite ?Hload;
      cbn [tail head item_size item_num with_tail with_head];
      rewrite ?Hsize, ?HN; try assumption; try nia; try lia.
    cbn [fst]. rewrite Z.mul_0_l.
    change (Z.to_nat 0) with 0%nat.
    by rewrite (fread_all content sz k).
Qed.

Lemma fresh_state_at_rest rootdir ns sz n m0 w :
  nvs_ready w = true -> fs_writable w = true ->
  let m := fresh_meta rootdir ns sz n m0 in
  let s := {| meta := m; env := truncated m (saved_env m w) |} in
  at_rest sz n 0 0 [] s /\ fs_capacity (env s) = fs_capacity w.
Proof.
  intros Hready Hw m s.
  destruct (fresh_state_persisted rootdir ns sz n m0 w Hready)
    as (Hr & Hh & Ht & _).
  destruct (saved_env_frame m w) as (_ & _ & Hw' & Hcap' & _).
  destruct (truncated_frame m (saved_env m w)) as (_ & _ & _ & _ & Hcap & _).
  split; [|subst s; cbn [env]; congruence].
  repeat split; auto.
  subst s. unfold block_file, truncated; cbn [meta env]. rewrite Hw', Hw.
  apply lookup_insert_eq.
Qed.

(** ** Writing across the end of the file *)

Lemma fwrite_prefix cap c0 p d sz n :
  0 < sz -> 0 <= n ->
  n * sz <= Z.of_nat (length d) ->
  Z.of_nat p + n * sz <= Z.of_nat cap ->
  fwrite cap c0 p d sz n = (pwrite c0 p (take (Z.to_nat (n * sz)) d), n).
Proof.
  intros Hsz Hn Hlen Hcap. unfold fwrite.
  replace (sz * n) with (n * sz) by lia.
  rewrite (take_ge (take _ d)) by (rewrite length_take; lia).
  destruct (Z.eqb_spec sz 0) as [?|_]; [lia|].
  rewrite length_take, Nat.min_l by lia.
  rewrite Z2Nat.id, Z.div_mul by lia. reflexivity.
Qed.

(** One block write that finds the file and stores all its bytes. *)
Lemma ringbuf_write_ok d n s content :
  block_file s = Some content ->
  0 < item_size (meta s) -> 0 <= head (meta s) ->
  head (meta s) * item_size (meta s) < 2 ^ 31 ->
  0 <= n < 2 ^ 31 ->
  n * item_size (meta s) <= Z.of_nat (length d) ->
  head (meta s) * item_size (meta s) + n * item_size (meta s)
    <= Z.of_nat (fs_capacity (env s)) ->
  ringbuf_write d n s
  = (n,
     {| meta := meta s;
        env := with_fs_files
                 (<[ringbuf_get_path (meta s) :=
                      pwrite content
                        (Z.to_nat (head (meta s) * item_size (meta s)))
                        (take (Z.to_nat (n * item_size (meta s))) d)]>
                    (fs_files (env s)))
                 (logged (WriteSlots (head (meta s)) n) (env s)) |}).
Proof.
  intros Hfile Hsz Hh Hpos Hn Hlen Hcap.
  assert (0 <= head (meta s) * item_size (meta s)) by nia.
  rewrite ringbuf_write_run, Hfile; cbn zeta. unfold stored.
  cbn [meta env fs_capacity logged with_blk_log].
  rewrite (u32_id (head (meta s) * item_size (meta s))),
    (s32_id (head (meta s) * item_size (meta s))) by lia.
  unfold fseek_set.
  destruct (Z.ltb_spec (head (meta s) * item_size (meta s)) 0) as [?|_];
    [lia|].
  rewrite (fwrite_prefix _ content _ d _ n) by lia.
  cbn [fst snd]. rewrite s32_id by lia. reflexivity.
Qed.

(** An accepted write that does not fit between the head and the end of
    the file, on a volume that takes all its bytes.  The bytes are split
    as they should be, but the head ends at the count itself and the
    occupancy is taken from slot 0, not from the old head [h]. *)
Lemma LFRingWrite_split E d c s sz N h t content :
  at_rest sz N h t content s ->
  0 < sz -> N * sz < 2 ^ 31 -> 0 <= h < N -> 0 <= t < N ->
  0 <= c <= N - 1 -> N < h + c ->
  Z.of_nat (length d) = c * sz ->
  N * sz <= Z.of_nat (fs_capacity (env s)) ->
  let used0 := (0 - t + N) mod N in
  let t' := if used0 + c >? N - 1 then (t + (used0 + c - (N - 1))) mod N
            else t in
  let first := Z.to_nat ((N - h) * sz) in
  fst (LFRingWrite E d c s) = c
  /\ at_rest sz N c t'
       (pwrite (pwrite content (Z.to_nat (h * sz)) (take first d)) 0
          (drop first d))
       (snd (LFRingWrite E d c s))
  /\ blk_log (env (snd (LFRingWrite E d c s)))
     = blk_log (env s) ++ [WriteSlots h (N - h); WriteSlots 0 (c - (N - h))].
Proof.
  intros (Hsz & HN & Hready & Hh & Ht & Hfile) Hszpos Hbytes Hhr Htr Hc Hwrap
    Hlen Hcap used0 t' first.
  assert (HN31 : N < 2 ^ 31) by nia.
  destruct (loaded_meta_persisted s h t Hready Hh Ht) as [_ Hload].
  rewrite !u32_id in Hload by lia.
  rewrite LFRingWrite_run, Hload; cbn zeta.
  cbn [meta env item_num head tail with_head with_tail]. rewrite HN.
  rewrite (u32_id (N - 1)) by lia.
  destruct (Z.gtb_spec c (N - 1)) as [?|_]; [lia|].
  unfold placed; cbn zeta.
  cbn [meta env item_num head tail with_head with_tail]. rewrite HN.
  rewrite (u32_id (N - h)) by lia. rewrite Z.geb_leb.
  destruct (Z.leb_spec c (N - h)) as [?|_]; [lia|].
  rewrite (s32_id (N - h)), (u32_id (N - h)) by lia.
  (* first block write *)
  set (s0 := {| meta := with_tail t (with_head h (meta s)); env := env s |}).
  assert (Hfile0 : block_file s0 = Some content) by exact Hfile.
  rewrite (ringbuf_write_ok d (N - h) s0 content Hfile0);
    subst s0; cbn [meta env head item_size with_head with_tail];
    rewrite ?Hsz; try nia.
  cbn [fst snd meta env item_size with_head with_tail]. rewrite Hsz.
  rewrite (u32_id ((N - h) * sz)), (u32_id (c - (N - h))) by nia. fold first.
  (* second block write *)
  set (m1 := with_head 0 (with_tail t (with_head h (meta s)))).
  set (w1 := with_fs_files _ _).
  assert (Hfile1 : block_file {| meta := m1; env := w1 |}
                   = Some (pwrite content (Z.to_nat (h * sz)) (take first d))).
  { unfold block_file; cbn [meta env]. subst w1; cbn [fs_files with_fs_files].
    apply lookup_insert_eq. }
  rewrite (ringbuf_write_ok (drop first d) (c - (N - h)) _ _ Hfile1);
    cbn [meta env]; change (head m1) with 0;
    change (item_size m1) with (item_size (meta s));
    change (fs_capacity w1) with (fs_capacity (env s));
    rewrite ?Hsz, ?length_drop; try (subst first; nia).
  rewrite Z.mul_0_l. change (Z.to_nat 0) with 0%nat.
  rewrite (take_ge (drop first d)) by (rewrite length_drop; subst first; nia).
  cbn [fst snd meta env]. rewrite !Z.add_0_l.
  rewrite (s32_id (N - h)) by lia.
  replace (N - h + (c - (N - h))) with c by lia. rewrite (s32_id c) by lia.
  rewrite advanced_ring; change (item_num m1) with (item_num (meta s));
    change (head m1) with 0; change (tail m1) with t; rewrite ?HN; try lia.
  fold used0 t'. rewrite Z.add_0_l, (Z.mod_small c N) by lia.
  set (m' := with_tail t' (with_head c m1)).
  set (w' := with_fs_files _ _).
  destruct (saved_env_frame m' w')
    as (Hready' & _ & _ & _ & Hfiles' & Hlog').
  split; [reflexivity|].
  split.
  - destruct (saved_env_persisted m' w'
                {| meta := m'; env := saved_env m' w' |})
      as (Hh' & Ht' & _); auto.
    repeat split; auto.
    + cbn [env]. by rewrite Hready'.
    + unfold block_file; cbn [meta env]. rewrite Hfiles'.
      apply lookup_insert_eq.
  - cbn [env]. rewrite Hlog'. subst w' w1.
    cbn [blk_log with_fs_files logged with_blk_log].
    by rewrite <- app_assoc.
Qed.

(** ** Writing when the block file cannot be opened *)

Lemma recovered_unwritable m w :
  fs_writable w = false ->
  fs_files w !! ringbuf_get_path m = None ->
  block_file (recovered m w) = None.
Proof.
  intros Hw Hnone. unfold block_file, recovered, truncated; cbn [meta env].
  destruct (saved_env_frame (reset_to (item_size m) (item_num m) m) w)
    as (_ & _ & -> & _ & Hfiles & _).
  rewrite Hw, Hfiles. exact Hnone.
Qed.

(** A write that fits before the end of the file, when the file is
    missing and cannot be created: [ringbuf_write] resets the metadata and
    reports -LFRB_NFILE_ERROR, and lines 418-433 then treat that -4 as an
    item count. *)
Lemma LFRingWrite_unopenable E d c s N h t :
  item_num (meta s) = N -> 1 <= N < 2 ^ 31 ->
  nvs_ready (env s) = true ->
  persisted "head" s = Some h -> persisted "tail" s = Some t ->
  block_file s = None -> fs_writable (env s) = false ->
  0 <= h <= N -> 0 <= t < 2 ^ 32 -> 0 <= c <= N - 1 -> c <= N - h ->
  fst (LFRingWrite E d c s) = - LFRB_NFILE_ERROR
  /\ persisted "head" (snd (LFRingWrite E d c s))
     = Some ((2 ^ 32 - 4) mod N)
  /\ persisted "tail" (snd (LFRingWrite E d c s))
     = Some ((2 ^ 32 - 3 - N) mod N).
Proof.
  intros HN HNr Hready Hh Ht Hnone Hw Hhr Htr Hc Hfit.
  destruct (loaded_meta_persisted s h t Hready Hh Ht) as [_ Hload].
  rewrite !u32_id in Hload by lia.
  rewrite LFRingWrite_run, Hload; cbn zeta.
  cbn [meta env item_num head tail with_head with_tail]. rewrite HN.
  rewrite (u32_id (N - 1)) by lia.
  destruct (Z.gtb_spec c (N - 1)) as [?|_]; [lia|].
  unfold placed; cbn zeta.
  cbn [meta env item_num head tail with_head with_tail]. rewrite HN.
  rewrite (u32_id (N - h)) by lia. rewrite Z.geb_leb.
  destruct (Z.leb_spec c (N - h)) as [_|?]; [|lia].
  rewrite ringbuf_write_run; cbn zeta.
  change (block_file {| meta := with_tail t (with_head h (meta s));
                        env := env s |}) with (block_file s).
  rewrite Hnone, recovered_unwritable by (cbn [meta]; assumption).
  cbn [fst snd meta env recovered]. 
  set (m0 := reset_to _ _ _). set (w0 := truncated _ _).
  assert (Hadv : advanced (s32 (0 + - LFRB_NFILE_ERROR)) m0
                 = with_tail ((2 ^ 32 - 3 - N) mod N)
                     (with_head ((2 ^ 32 - 4) mod N) m0)).
  { unfold advanced; cbn zeta.
    change (head m0) with 0; change (tail m0) with 0.
    change (item_num m0) with (item_num (meta s)). rewrite HN.
    change (s32 (0 + - LFRB_NFILE_ERROR)) with (-4).
    change (0 >=? 0) with true. cbn match.
    change (u32 (0 - 0)) with 0. change (u32 (0 + -4)) with (2 ^ 32 - 4).
    rewrite (u32_id (N - 1)) by lia.
    destruct (Z.gtb_spec (2 ^ 32 - 4) (N - 1)) as [_|?]; [|lia].
    replace (u32 (0 + -4 - N + 1)) with (2 ^ 32 - 3 - N).
    2:{ unfold u32. symmetry.
        replace (0 + -4 - N + 1) with (2 ^ 32 - 3 - N + (-1) * 2 ^ 32) by lia.
        rewrite Z_mod_plus_full. apply Z.mod_small. lia. }
    rewrite (u32_id (0 + (2 ^ 32 - 3 - N))) by lia.
    reflexivity. }
  rewrite Hadv. split; [reflexivity|].
  set (m' := with_tail _ _).
  assert (Hready0 : nvs_ready w0 = true).
  { subst w0. cbn [head with_head with_tail].
    destruct (truncated_frame m0
                (saved_env m0 (logged (WriteSlots h c) (env s))))
      as (Hr1 & _).
    destruct (saved_env_frame m0 (logged (WriteSlots h c) (env s)))
      as (Hr2 & _).
    rewrite Hr1, Hr2. exact Hready. }
  destruct (saved_env_persisted m' w0 {| meta := m'; env := saved_env m' w0 |})
    as (Hh' & Ht' & _); auto.
Qed.

(** ** Initialisation on an NVS partition that already holds the namespace *)

Lemma nvs_get_u32_found ns key old w kv v :
  nvs w !! ns = Some kv -> kv !! key = Some v -> 0 <= v < 2 ^ 32 ->
  nvs_get_u32 ns key old w = v.
Proof.
  intros Hns Hkey Hv. unfold nvs_get_u32. rewrite Hns, Hkey.
  by apply u32_id.
Qed.

Lemma init_meta_result_status ns sz n s :
  fst (init_meta_result ns sz n s)
  = if nvs_ready (env s) then LFRB_OK else - LFRB_NVS_ERROR.
Proof.
  unfold init_meta_result; cbn zeta. unfold nvs_open_readonly.
  destruct (nvs_ready (env s)); cbn [andb]; [|reflexivity].
  destruct (bool_decide _); [destruct (negb _ || negb _)|]; reflexivity.
Qed.

Lemma init_meta_result_frame ns sz n s :
  fs_dirs (env (snd (init_meta_result ns sz n s))) = fs_dirs (env s)
  /\ fs_writable (env (snd (init_meta_result ns sz n s)))
     = fs_writable (env s)
  /\ blk_log (env (snd (init_meta_result ns sz n s))) = blk_log (env s)
  /\ root (meta (snd (init_meta_result ns sz n s))) = root (meta s).
Proof.
  unfold init_meta_result; cbn zeta.
  destruct (nvs_open_readonly _ _); [destruct (negb _ || negb _)|];
    cbn [snd env meta root reset_to with_item_num with_item_size with_tail
         with_head with_nvs_namespace];
    repeat split; try reflexivity; apply saved_env_frame.
Qed.

(** The metadata step of a restart: the namespace holds all four keys. *)
Lemma init_meta_result_found ns sz n m0 w kv h t sz0 n0 :
  nvs_ready w = true ->
  nvs w !! substring 0 (NVS_KEY_NAME_MAX_SIZE - 1) ns = Some kv ->
  kv !! "head" = Some h -> kv !! "tail" = Some t ->
  kv !! "size" = Some sz0 -> kv !! "num" = Some n0 ->
  0 <= h < 2 ^ 32 -> 0 <= t < 2 ^ 32 ->
  0 <= sz0 < 2 ^ 32 -> 0 <= n0 < 2 ^ 32 ->
  init_meta_result ns sz n {| meta := m0; env := w |}
  = let m2 := {| root := root m0;
                 nvs_namespace := substring 0 (NVS_KEY_NAME_MAX_SIZE - 1) ns;
                 head := h; tail := t; item_size := sz0; item_num := n0 |} in
    if negb (sz0 =? sz) || negb (n0 =? n) then
      (LFRB_OK,
       {| meta := reset_to sz n m2; env := saved_env (reset_to sz n m2) w |})
    else (LFRB_OK, {| meta := m2; env := w |}).
Proof.
  intros Hready Hns Hh Ht Hsz Hn Hhr Htr Hszr Hnr.
  unfold init_meta_result; cbn zeta.
  cbn [meta env nvs_namespace with_nvs_namespace].
  assert (nvs_open_readonly (substring 0 (NVS_KEY_NAME_MAX_SIZE - 1) ns) w
          = true) as ->.
  { unfold nvs_open_readonly. rewrite Hready, Hns.
    by rewrite bool_decide_eq_true_2 by eauto. }
  rewrite (nvs_get_u32_found _ "head" _ w kv h),
    (nvs_get_u32_found _ "tail" _ w kv t),
    (nvs_get_u32_found _ "size" _ w kv sz0),
    (nvs_get_u32_found _ "num" _ w kv n0) by assumption.
  cbn [item_size item_num with_item_num with_item_size]. rewrite Hready.
  reflexivity.
Qed.

(** ** Bounded strings and the path of the block file *)

Lemma substring_length_le n s : (String.length (substring 0 n s) <= n)%nat.
Proof.
  revert s. induction n as [|n IH]; intros [|c s]; cbn; try lia.
  specialize (IH s). lia.
Qed.

Lemma substring_short n s :
  (String.length s <= n)%nat -> substring 0 n s = s.
Proof.
  revert s. induction n as [|n IH]; intros [|c s]; cbn; intros H;
    try reflexivity; try lia.
  f_equal. apply IH. lia.
Qed.

Lemma string_length_append s1 s2 :
  String.length (String.append s1 s2)
  = (String.length s1 + String.length s2)%nat.
Proof.
  induction s1 as [|c s1 IH]; simpl; [reflexivity | f_equal; exact IH].
Qed.

Lemma string_append_inj_r s1 s2 t :
  String.append s1 t = String.append s2 t -> s1 = s2.
Proof.
  revert s2. induction s1 as [|c s1 IH]; intros [|c2 s2] H; simpl in H.
  - reflexivity.
  - apply (f_equal String.length) in H. simpl in H.
    rewrite !string_length_append in H. simpl in H. lia.
  - apply (f_equal String.length) in H. simpl in H.
    rewrite !string_length_append in H. simpl in H. lia.
  - injection H as -> H. f_equal. by apply IH.
Qed.

(** A struct whose root and namespace fit their arrays has the path
    [root/namespace.bin], with no cut by [snprintf]. *)
Lemma ringbuf_get_path_fits m :
  (String.length (root m) <= ESP_VFS_PATH_MAX - 1)%nat ->
  (String.length (nvs_namespace m) <= NVS_KEY_NAME_MAX_SIZE - 1)%nat ->
  ringbuf_get_path m
  = String.append (root m)
      (String.append "/" (String.append (nvs_namespace m) ".bin")).
Proof.
  intros Hr Hn. unfold ringbuf_get_path. apply substring_short.
  rewrite !string_length_append. cbn [String.length].
  unfold ESP_VFS_PATH_MAX, NVS_KEY_NAME_MAX_SIZE, LFRB_MAX_PATH in *. lia.
Qed.

(** [LFRingInit] depends on the names only through their cut forms. *)
Lemma init_meta_result_names ns sz n s :
  nvs_namespace (meta (snd (init_meta_result ns sz n s)))
  = substring 0 (NVS_KEY_NAME_MAX_SIZE - 1) ns.
Proof.
  unfold init_meta_result; cbn zeta.
  by destruct (nvs_open_readonly _ _); [destruct (negb _ || negb _)|].
Qed.

(** ** What the block layer leaves alone *)

Lemma recovered_frame m w :
  nvs_ready (env (recovered m w)) = nvs_ready w
  /\ fs_dirs (env (recovered m w)) = fs_dirs w
  /\ fs_writable (env (recovered m w)) = fs_writable w
  /\ fs_capacity (env (recovered m w)) = fs_capacity w.
Proof.
  unfold recovered; cbn [env].
  destruct (truncated_frame (reset_to (item_size m) (item_num m) m)
              (saved_env (reset_to (item_size m) (item_num m) m) w))
    as (-> & _ & -> & -> & -> & _).
  destruct (saved_env_frame (reset_to (item_size m) (item_num m) m) w)
    as (-> & -> & -> & -> & _).
  done.
Qed.

Lemma ringbuf_write_frame data num s :
  nvs_ready (env (snd (ringbuf_write data num s))) = nvs_ready (env s)
  /\ fs_dirs (env (snd (ringbuf_write data num s))) = fs_dirs (env s)
  /\ fs_writable (env (snd (ringbuf_write data num s))) = fs_writable (env s)
  /\ fs_capacity (env (snd (ringbuf_write data num s))) = fs_capacity (env s).
Proof.
  rewrite ringbuf_write_run; cbn zeta.
  destruct (block_file s); [done|].
  destruct (block_file (recovered _ _)); cbn [snd stored env];
    apply (recovered_frame (meta s)
             (logged (WriteSlots (head (meta s)) num) (env s))).
Qed.

Lemma ringbuf_read_frame num s :
  nvs_ready (env (snd (ringbuf_read num s))) = nvs_ready (env s)
  /\ fs_dirs (env (snd (ringbuf_read num s))) = fs_dirs (env s)
  /\ fs_writable (env (snd (ringbuf_read num s))) = fs_writable (env s)
  /\ fs_capacity (env (snd (ringbuf_read num s))) = fs_capacity (env s).
Proof.
  rewrite ringbuf_read_run; cbn zeta.
  destruct (block_file s); [done|]. cbn [snd].
  apply (recovered_frame (meta s)
           (logged (ReadSlots (tail (meta s)) num) (env s))).
Qed.

Lemma placed_frame data num s :
  nvs_ready (env (snd (placed data num s))) = nvs_ready (env s)
  /\ fs_dirs (env (snd (placed data num s))) = fs_dirs (env s)
  /\ fs_writable (env (snd (placed data num s))) = fs_writable (env s)
  /\ fs_capacity (env (snd (placed data num s))) = fs_capacity (env s).
Proof.
  unfold placed; cbn zeta. destruct (_ >=? _); cbn [snd].
  - apply ringbuf_write_frame.
  - set (r1 := ringbuf_write data _ s).
    set (s1 := {| meta := with_head 0 (meta (snd r1)); env := env (snd r1) |}).
    destruct (ringbuf_write_frame
                (drop (Z.to_nat (u32 (s32 (u32 (item_num (meta s)
                                                 - head (meta s)))
                                      * item_size (meta s1)))) data)
                (u32 (num - s32 (u32 (item_num (meta s) - head (meta s)))))
                s1) as (-> & -> & -> & ->).
    apply ringbuf_write_frame.
Qed.

(** The head and tail that [ringbuf_write] and the write phase leave are
    the ones they found, or zero. *)
Lemma ringbuf_write_indices data num s :
  (head (meta (snd (ringbuf_write data num s))) = head (meta s)
   \/ head (meta (snd (ringbuf_write data num s))) = 0)
  /\ (tail (meta (snd (ringbuf_write data num s))) = tail (meta s)
      \/ tail (meta (snd (ringbuf_write data num s))) = 0).
Proof. rewrite ringbuf_write_meta. destruct (block_file s); cbn; auto. Qed.

Lemma placed_indices data num s :
  (head (meta (snd (placed data num s))) = head (meta s)
   \/ head (meta (snd (placed data num s))) = 0)
  /\ (tail (meta (snd (placed data num s))) = tail (meta s)
      \/ tail (meta (snd (placed data num s))) = 0).
Proof.
  unfold placed; cbn zeta. destruct (_ >=? _); cbn [snd].
  - apply ringbuf_write_indices.
  - set (r1 := ringbuf_write data _ s).
    set (s1 := {| meta := with_head 0 (meta (snd r1)); env := env (snd r1) |}).
    destruct (ringbuf_write_indices data
                (u32 (s32 (u32 (item_num (meta s) - head (meta s))))) s)
      as [_ Ht1]. fold r1 in Ht1.
    match goal with |- context [ringbuf_write ?d ?n s1] =>
      destruct (ringbuf_write_indices d n s1) as [Hh2 Ht2] end.
    split.
    + destruct Hh2 as [Hh2|Hh2]; right; exact Hh2.
    + destruct Ht2 as [Ht2|Ht2]; [|right; exact Ht2].
      destruct Ht1 as [Ht1|Ht1]; [left|right]; exact (eq_trans Ht2 Ht1).
Qed.

Lemma advanced_indices n m :
  1 <= item_num m -> 0 <= tail m < item_num m ->
  0 <= head (advanced n m) < item_num m
  /\ 0 <= tail (advanced n m) < item_num m.
Proof.
  intros HN Ht. unfold advanced; cbn zeta.
  destruct (_ >? _); cbn [head tail with_head with_tail];
    (split; [apply Z.mod_pos_bound; lia|]);
    [apply Z.mod_pos_bound; lia | exact Ht].
Qed.

(** ** Short writes *)

Lemma fwrite_bounds cap c0 p d sz n :
  0 < sz -> 0 <= n -> 0 <= snd (fwrite cap c0 p d sz n) <= n.
Proof.
  intros Hsz Hn. unfold fwrite; cbn [snd].
  destruct (Z.eqb_spec sz 0) as [?|_]; [lia|].
  set (bytes := take _ (take _ d)).
  assert (Z.of_nat (length bytes) <= sz * n).
  { subst bytes. rewrite !length_take. lia. }
  split; [apply Z.div_pos; lia|].
  apply Z.div_le_upper_bound; lia.
Qed.

(** ** One buffer does not touch another *)

Lemma same_elsewhere_refl ns path w : same_elsewhere ns path w w.
Proof. by split. Qed.

Lemma same_elsewhere_trans ns path w1 w2 w3 :
  same_elsewhere ns path w1 w2 -> same_elsewhere ns path w2 w3 ->
  same_elsewhere ns path w1 w3.
Proof.
  intros [Hn1 Hf1] [Hn2 Hf2]. split; intros x Hx.
  - by rewrite Hn2, Hn1.
  - by rewrite Hf2, Hf1.
Qed.

Lemma saved_env_elsewhere m w path :
  same_elsewhere (nvs_namespace m) path w (saved_env m w).
Proof.
  unfold saved_env. destruct (nvs_ready w); [|apply same_elsewhere_refl].
  split; [|reflexivity].
  intros ns' Hne. unfold nvs_set_u32; cbn [nvs with_nvs].
  by rewrite !lookup_insert_ne.
Qed.

Lemma truncated_elsewhere m w ns :
  same_elsewhere ns (ringbuf_get_path m) w (truncated m w).
Proof.
  unfold truncated. destruct (fs_writable w); [|apply same_elsewhere_refl].
  split; [reflexivity|].
  intros p Hne. cbn [fs_files with_fs_files]. by rewrite lookup_insert_ne.
Qed.

Lemma logged_elsewhere e w ns path : same_elsewhere ns path w (logged e w).
Proof. by split. Qed.

Lemma recovered_elsewhere m w :
  same_elsewhere (nvs_namespace m) (ringbuf_get_path m) w
    (env (recovered m w)).
Proof.
  unfold recovered; cbn [env].
  eapply same_elsewhere_trans;
    [apply (saved_env_elsewhere (reset_to (item_size m) (item_num m) m))|].
  apply (truncated_elsewhere (reset_to (item_size m) (item_num m) m)).
Qed.

Lemma stored_elsewhere s pos c data num ns :
  same_elsewhere ns (ringbuf_get_path (meta s)) (env s)
    (env (snd (stored s pos c data num))).
Proof.
  split; [reflexivity|].
  intros p Hne. cbn [stored snd env fs_files with_fs_files].
  by rewrite lookup_insert_ne.
Qed.

Lemma ringbuf_write_elsewhere data num s :
  same_elsewhere (nvs_namespace (meta s)) (ringbuf_get_path (meta s))
    (env s) (env (snd (ringbuf_write data num s))).
Proof.
  rewrite ringbuf_write_run; cbn zeta.
  destruct (block_file s).
  - eapply same_elsewhere_trans; [apply logged_elsewhere|].
    apply (stored_elsewhere {| meta := meta s; env := _ |}).
  - eapply same_elsewhere_trans; [apply logged_elsewhere|].
    destruct (block_file (recovered _ _)).
    + eapply same_elsewhere_trans; [apply recovered_elsewhere|].
      apply (stored_elsewhere (recovered _ _)).
    + apply recovered_elsewhere.
Qed.

Lemma ringbuf_read_elsewhere num s :
  same_elsewhere (nvs_namespace (meta s)) (ringbuf_get_path (meta s))
    (env s) (env (snd (ringbuf_read num s))).
Proof.
  rewrite ringbuf_read_run; cbn zeta.
  destruct (block_file s); cbn [snd env].
  - apply logged_elsewhere.
  - eapply same_elsewhere_trans; [apply logged_elsewhere|].
    apply recovered_elsewhere.
Qed.

Lemma geometry_names m1 m2 :
  geometry m1 = geometry m2 ->
  nvs_namespace m1 = nvs_namespace m2
  /\ ringbuf_get_path m1 = ringbuf_get_path m2.
Proof.
  unfold geometry, ringbuf_get_path. intros [= -> -> _ _]. done.
Qed.

Lemma placed_elsewhere data num s :
  same_elsewhere (nvs_namespace (meta s)) (ringbuf_get_path (meta s))
    (env s) (env (snd (placed data num s))).
Proof.
  unfold placed; cbn zeta. destruct (_ >=? _); cbn [snd].
  - apply ringbuf_write_elsewhere.
  - set (r1 := ringbuf_write data _ s).
    set (s1 := {| meta := with_head 0 (meta (snd r1)); env := env (snd r1) |}).
    eapply same_elsewhere_trans; [apply ringbuf_write_elsewhere|]. fold r1.
    destruct (geometry_names (meta s1) (meta s)) as [Hns Hpath].
    { apply (ringbuf_write_geometry data _ s). }
    rewrite <- Hns, <- Hpath. apply (ringbuf_write_elsewhere _ _ s1).
Qed.

(** ** Writing without a wrap, whatever [fwrite] stores *)

(** An accepted request that fits before the end of an existing block
    file: the count returned and added to the head is the one [fwrite]
    reports. *)
Lemma LFRingWrite_stores E d c s sz N h t content :
  at_rest sz N h t content s ->
  0 < sz -> N * sz < 2 ^ 31 -> 0 <= h < N -> 0 <= t < N ->
  0 <= c <= N - 1 -> h + c <= N ->
  let r := fwrite (fs_capacity (env s)) content (Z.to_nat (h * sz)) d sz c in
  let n := snd r in
  let used := (h - t + N) mod N in
  let t' := if used + n >? N - 1 then (t + (used + n - (N - 1))) mod N
            else t in
  fst (LFRingWrite E d c s) = n
  /\ 0 <= n <= c
  /\ at_rest sz N ((h + n) mod N) t' (fst r) (snd (LFRingWrite E d c s)).
Proof.
  intros (Hsz & HN & Hready & Hh & Ht & Hfile) Hszpos Hbytes Hhr Htr Hc Hfit
    r n used t'.
  assert (HN31 : N < 2 ^ 31) by nia.
  assert (Hpos : 0 <= h * sz < 2 ^ 31) by nia.
  destruct (fwrite_bounds (fs_capacity (env s)) content (Z.to_nat (h * sz))
              d sz c Hszpos ltac:(lia)) as [Hn0 Hnc]. fold r n in Hn0, Hnc.
  destruct (loaded_meta_persisted s h t Hready Hh Ht) as [_ Hload].
  rewrite !u32_id in Hload by lia.
  rewrite LFRingWrite_run, Hload; cbn zeta.
  cbn [meta env item_num head tail with_head with_tail]. rewrite HN.
  rewrite (u32_id (N - 1)) by lia.
  destruct (Z.gtb_spec c (N - 1)) as [?|_]; [lia|].
  unfold placed; cbn zeta.
  cbn [meta env item_num head tail with_head with_tail]. rewrite HN.
  rewrite (u32_id (N - h)) by lia. rewrite Z.geb_leb.
  destruct (Z.leb_spec c (N - h)) as [_|?]; [|lia].
  rewrite ringbuf_write_run; cbn zeta.
  change (block_file {| meta := with_tail t (with_head h (meta s));
                        env := env s |}) with (block_file s).
  rewrite Hfile. unfold stored.
  cbn [meta env item_size head with_head with_tail fs_capacity logged
       with_blk_log]. rewrite Hsz.
  rewrite (u32_id (h * sz)), (s32_id (h * sz)) by lia.
  unfold fseek_set. destruct (Z.ltb_spec (h * sz) 0) as [?|_]; [lia|].
  fold r n. cbn [fst snd meta env].
  rewrite (s32_id n), Z.add_0_l, (s32_id n) by lia.
  rewrite advanced_ring;
    cbn [item_num head tail with_head with_tail]; rewrite ?HN; try lia.
  fold used t'.
  set (m' := with_tail t' (with_head ((h + n) mod N)
                             (with_tail t (with_head h (meta s))))).
  set (w' := with_fs_files _ _).
  destruct (saved_env_frame m' w') as (Hready' & _ & _ & _ & Hfiles' & _).
  split; [reflexivity|]. split; [lia|].
  destruct (saved_env_persisted m' w' {| meta := m'; env := saved_env m' w' |})
    as (Hh' & Ht' & _); auto.
  repeat split; auto.
  - cbn [env]. by rewrite Hready'.
  - unfold block_file; cbn [meta env]. rewrite Hfiles'.
    apply lookup_insert_eq.
Qed.


(** ** Reading a file that ends at the head *)

Lemma fread_whole_items c p sz num a :
  0 < sz -> 0 <= a ->
  Z.of_nat (length c - p) = a * sz ->
  fread c p sz num
  = (take (Z.to_nat (Z.min num a * sz)) (drop p c), Z.min num a).
Proof.
  intros Hsz Ha Hlen. unfold fread.
  destruct (Z.eqb_spec sz 0) as [?|_]; [lia|].
  by rewrite Hlen, Z.div_mul by lia.
Qed.

(** While the block file holds exactly the slots below the head and the
    tail has not passed it, a read returns the oldest unread items, at
    most those that are there, and moves the tail past them. *)
Lemma LFRingRead_oldest num s sz N h t content :
  at_rest sz N h t content s ->
  Z.of_nat (length content) = h * sz ->
  0 < sz -> N * sz < 2 ^ 31 -> 0 <= t <= h -> h < N -> 0 <= num ->
  let n := Z.min num (h - t) in
  fst (LFRingRead num s)
  = (n, take (Z.to_nat (n * sz)) (drop (Z.to_nat (t * sz)) content))
  /\ at_rest sz N h (t + n) content (snd (LFRingRead num s)).
Proof.
  intros (Hsz & HN & Hready & Hh & Ht & Hfile) Hlen Hszpos Hbytes Htr Hhr Hnum
    n.
  assert (HN31 : N < 2 ^ 31) by nia.
  destruct (loaded_meta_persisted s h t Hready Hh Ht) as [_ Hload].
  rewrite !u32_id in Hload by lia.
  destruct (Z.eq_dec t h) as [Heq|Hne].
  - subst t. replace n with 0 by lia.
    rewrite LFRingRead_run, Hload; cbn zeta.
    cbn [meta env head tail with_head with_tail]. rewrite Z.eqb_refl.
    cbn [fst snd]. split; [reflexivity|]. rewrite Z.add_0_r.
    repeat split; auto.
  - assert (Hr : fread content (Z.to_nat (t * sz)) sz num
                 = (take (Z.to_nat (n * sz)) (drop (Z.to_nat (t * sz)) content),
                    n)).
    { apply fread_whole_items; nia. }
    rewrite (LFRingRead_open num s content); rewrite ?Hload;
      cbn [tail head item_size item_num with_tail with_head];
      rewrite ?Hsz, ?HN; try assumption; try nia; try lia.
    rewrite Hr. cbn [fst snd]. split; [reflexivity|].
    rewrite (Z.mod_small (t + n) N) by lia.
    set (m' := with_tail (t + n) (with_tail t (with_head h (meta s)))).
    set (w' := logged _ _).
    destruct (saved_env_frame m' w') as (Hready' & _ & _ & _ & Hfiles' & _).
    destruct (saved_env_persisted m' w'
                {| meta := m'; env := saved_env m' w' |})
      as (Hh' & Ht' & _); auto.
    repeat split; auto.
    + cbn [env]. by rewrite Hready'.
    + unfold block_file; cbn [meta env]. rewrite Hfiles'. exact Hfile.
Qed.

(** ** What a run of writes keeps *)

Lemma LFRingWrite_frame E data num s :
  nvs_ready (env (snd (LFRingWrite E data num s))) = nvs_ready (env s)
  /\ fs_dirs (env (snd (LFRingWrite E data num s))) = fs_dirs (env s)
  /\ fs_writable (env (snd (LFRingWrite E data num s))) = fs_writable (env s)
  /\ fs_capacity (env (snd (LFRingWrite E data num s))) = fs_capacity (env s).
Proof.
  rewrite LFRingWrite_run; cbn zeta; cbn [meta env].
  destruct (_ >? _); cbn [snd env]; [done|].
  set (r := placed data num _).
  destruct (saved_env_frame (advanced (fst r) (meta (snd r))) (env (snd r)))
    as (-> & -> & -> & -> & _).
  apply (placed_frame data num
           {| meta := loaded_meta (meta s) (env s); env := env s |}).
Qed.

(** After an accepted write on a usable NVS partition, NVS holds the four
    fields of the struct. *)
Lemma LFRingWrite_saved E data num s :
  nvs_ready (env s) = true ->
  (num >? u32 (item_num (meta s) - 1)) = false ->
  persisted "head" (snd (LFRingWrite E data num s))
  = Some (head (meta (snd (LFRingWrite E data num s))))
  /\ persisted "tail" (snd (LFRingWrite E data num s))
     = Some (tail (meta (snd (LFRingWrite E data num s))))
  /\ persisted "size" (snd (LFRingWrite E data num s))
     = Some (item_size (meta (snd (LFRingWrite E data num s))))
  /\ persisted "num" (snd (LFRingWrite E data num s))
     = Some (item_num (meta (snd (LFRingWrite E data num s)))).
Proof.
  intros Hready Hacc.
  pose proof (loaded_geometry (meta s) (env s)) as Hg.
  unfold geometry in Hg. injection Hg as _ _ _ HNl.
  rewrite LFRingWrite_run; cbn zeta; cbn [meta env]. rewrite HNl, Hacc.
  cbn [snd]. set (r := placed data num _). set (m' := advanced _ _).
  apply (saved_env_persisted m' (env (snd r))); auto.
  destruct (placed_frame data num
              {| meta := loaded_meta (meta s) (env s); env := env s |})
    as (Hr & _). fold r in Hr. by rewrite Hr.
Qed.

Lemma persisted_same_names key m1 m2 w :
  nvs_namespace m1 = nvs_namespace m2 ->
  persisted key {| meta := m1; env := w |}
  = persisted key {| meta := m2; env := w |}.
Proof. unfold persisted; cbn [meta env]. by intros ->. Qed.

(** The persisted size and count follow the struct through any write. *)
Lemma LFRingWrite_config E data num s :
  nvs_ready (env s) = true ->
  persisted "size" s = Some (item_size (meta s)) ->
  persisted "num" s = Some (item_num (meta s)) ->
  persisted "size" (snd (LFRingWrite E data num s))
  = Some (item_size (meta (snd (LFRingWrite E data num s))))
  /\ persisted "num" (snd (LFRingWrite E data num s))
     = Some (item_num (meta (snd (LFRingWrite E data num s)))).
Proof.
  intros Hready Hs Hn.
  destruct (num >? u32 (item_num (meta s) - 1)) eqn:Hacc.
  - pose proof (loaded_geometry (meta s) (env s)) as Hg.
    unfold geometry in Hg. injection Hg as _ Hns Hsz HNl.
    rewrite LFRingWrite_run; cbn zeta; cbn [meta env]. rewrite HNl, Hacc.
    cbn [snd meta]. rewrite Hsz, HNl.
    rewrite !(persisted_same_names _ (loaded_meta (meta s) (env s)) (meta s))
      by exact Hns.
    by destruct s.
  - destruct (LFRingWrite_saved E data num s Hready Hacc) as (_ & _ & ? & ?).
    done.
Qed.

Lemma write_all_keeps E batches :
  forall s,
    nvs_ready (env s) = true ->
    persisted "size" s = Some (item_size (meta s)) ->
    persisted "num" s = Some (item_num (meta s)) ->
    let s' := snd (write_all E batches s) in
    geometry (meta s') = geometry (meta s)
    /\ nvs_ready (env s') = true
    /\ fs_dirs (env s') = fs_dirs (env s)
    /\ fs_writable (env s') = fs_writable (env s)
    /\ fs_capacity (env s') = fs_capacity (env s)
    /\ persisted "size" s' = Some (item_size (meta s))
    /\ persisted "num" s' = Some (item_num (meta s)).
Proof.
  induction batches as [|b rest IH]; intros s Hready Hs Hn; cbv zeta.
  - cbn [write_all ret snd]. done.
  - rewrite write_all_cons; cbn [snd].
    set (s1 := snd (LFRingWrite E (fst b) (snd b) s)).
    destruct (LFRingWrite_frame E (fst b) (snd b) s) as (Hr1 & Hd1 & Hw1 & Hc1).
    destruct (LFRingWrite_config E (fst b) (snd b) s Hready Hs Hn)
      as [Hs1 Hn1].
    pose proof (LFRingWrite_geometry E (fst b) (snd b) s) as Hg1.
    fold s1 in Hr1, Hd1, Hw1, Hc1, Hs1, Hn1, Hg1.
    destruct (IH s1) as (Hg & Hr & Hd & Hw & Hc & Hs' & Hn'); auto;
      [congruence|].
    pose proof Hg1 as Hg1'. unfold geometry in Hg1'.
    injection Hg1' as _ _ Hsz1 HN1.
    repeat split; try congruence.
Qed.

(** A state at rest whose names are the cut forms of [rootdir] and [ns]
    is found again by [LFRingInit] with the persisted configuration. *)
Lemma LFRingInit_reopens rootdir ns sz N m1 s h t content :
  at_rest sz N h t content s ->
  persisted "size" s = Some sz -> persisted "num" s = Some N ->
  root (meta s) = substring 0 (ESP_VFS_PATH_MAX - 1) rootdir ->
  nvs_namespace (meta s) = substring 0 (NVS_KEY_NAME_MAX_SIZE - 1) ns ->
  rootdir ∈ fs_dirs (env s) -> fs_writable (env s) = true ->
  0 <= h < 2 ^ 32 -> 0 <= t < 2 ^ 32 -> 0 <= sz < 2 ^ 32 -> 0 <= N < 2 ^ 32 ->
  (h = 0 /\ t = 0 -> content = []) ->
  fst (LFRingInit rootdir ns sz N {| meta := m1; env := env s |}) = LFRB_OK
  /\ at_rest sz N h t content
       (snd (LFRingInit rootdir ns sz N {| meta := m1; env := env s |})).
Proof.
  intros (_ & _ & Hready & Hh & Ht & Hfile) Hs Hn Hroot Hns Hdir Hw Hhr Htr
    Hszr HNr Horigin.
  unfold persisted in Hh, Ht, Hs, Hn. rewrite Hns in Hh, Ht, Hs, Hn.
  destruct (nvs (env s) !! substring 0 (NVS_KEY_NAME_MAX_SIZE - 1) ns)
    as [kv|] eqn:Hkv; [|discriminate].
  cbn [mbind option_bind] in Hh, Ht, Hs, Hn.
  set (m := {| root := substring 0 (ESP_VFS_PATH_MAX - 1) rootdir;
               nvs_namespace := substring 0 (NVS_KEY_NAME_MAX_SIZE - 1) ns;
               head := h; tail := t; item_size := sz; item_num := N |}).
  assert (Hpath : ringbuf_get_path m = ringbuf_get_path (meta s)).
  { unfold ringbuf_get_path; cbn [root nvs_namespace m].
    by rewrite Hroot, Hns. }
  assert (Hrun : LFRingInit rootdir ns sz N {| meta := m1; env := env s |}
                 = if (h =? 0) && (t =? 0)
                   then (LFRB_OK, {| meta := m; env := truncated m (env s) |})
                   else (LFRB_OK, {| meta := m; env := env s |})).
  { rewrite LFRingInit_run.
    rewrite (init_meta_result_found ns sz N m1 (env s) kv h t sz N)
      by assumption.
    cbn zeta. rewrite !Z.eqb_refl. cbn [negb orb fst snd].
    change (LFRB_OK <? 0) with false. cbn match.
    unfold init_lfs_result; cbn [meta env].
    rewrite bool_decide_eq_true_2 by done.
    cbn zeta. cbn [head tail with_root]. rewrite Hw.
    by destruct ((h =? 0) && (t =? 0)). }
  rewrite Hrun.
  assert (Hp : forall w', nvs w' = nvs (env s) ->
             persisted "head" {| meta := m; env := w' |} = Some h
             /\ persisted "tail" {| meta := m; env := w' |} = Some t).
  { intros w' Hnvs. unfold persisted; cbn [meta env nvs_namespace m].
    rewrite Hnvs, Hkv. cbn [mbind option_bind]. done. }
  destruct ((h =? 0) && (t =? 0)) eqn:Ho; cbn [fst snd].
  - apply andb_prop in Ho as [Hh0 Ht0].
    apply Z.eqb_eq in Hh0, Ht0. rewrite (Horigin (conj Hh0 Ht0)).
    destruct (truncated_frame m (env s)) as (Hr & Hnvs & _).
    destruct (Hp _ Hnvs) as [? ?].
    split; [reflexivity|]. repeat split; auto.
    + cbn [env]. congruence.
    + unfold block_file, truncated; cbn [meta env]. rewrite Hw.
      apply lookup_insert_eq.
  - destruct (Hp _ eq_refl) as [? ?].
    split; [reflexivity|]. repeat split; auto.
    unfold block_file in *; cbn [meta env]. by rewrite Hpath.
Qed.

(** ** Claims about the user layer *)

(** C1: the code departs from the claim when a write wraps.  With head =
    tail = 3 in a five-slot buffer, a write of three items is split into
    two items at slot 3 and one at slot 0 and returns 3, but the persisted
    head is 3, not (3 + 3) mod 5 = 1: line 414 sets the head to 0 before
    the second block write and line 424 then adds the whole count to it.
    The occupancy is computed from that zeroed head as well, so one item
    is evicted from a buffer that was empty. *)
Theorem LFRingWrite_wrap_loses_head :
  item_num (meta drained) = 5
  /\ persisted "head" drained = Some 3
  /\ persisted "tail" drained = Some 3
  /\ fst (LFRingWrite demo_exceed (item x04 ++ item x05 ++ item x06) 3
            drained) = 3
  /\ blk_log (env (snd (LFRingWrite demo_exceed
                          (item x04 ++ item x05 ++ item x06) 3 drained)))
     = blk_log (env drained) ++ [WriteSlots 3 2; WriteSlots 0 1]
  /\ persisted "head" (snd (LFRingWrite demo_exceed
                              (item x04 ++ item x05 ++ item x06) 3 drained))
     = Some 3
  /\ persisted "tail" (snd (LFRingWrite demo_exceed
                              (item x04 ++ item x05 ++ item x06) 3 drained))
     = Some 4
  /\ persisted "head" (snd (LFRingWrite demo_exceed
                              (item x04 ++ item x05 ++ item x06) 3 drained))
     <> Some ((3 + 3) mod 5).
Proof. by vm_compute. Qed.

(** C2: the code departs from the claim when a write wraps.  After four
    items filled the five-slot buffer (head = 4, tail = 0), a write of two
    more returns 2 and leaves the persisted tail at 0 and the head at 2;
    the claim asks for two evictions, tail = 2, and head = 1.  The
    occupancy of line 420 is read after line 414 zeroed the head, so it is
    0 instead of 4 and no eviction is seen. *)
Theorem LFRingWrite_wrap_skips_eviction :
  item_num (meta full4) = 5
  /\ persisted "head" full4 = Some 4
  /\ persisted "tail" full4 = Some 0
  /\ fst (LFRingWrite demo_exceed (item x05 ++ item x06) 2 full4) = 2
  /\ persisted "tail"
       (snd (LFRingWrite demo_exceed (item x05 ++ item x06) 2 full4))
     = Some 0
  /\ persisted "head"
       (snd (LFRingWrite demo_exceed (item x05 ++ item x06) 2 full4))
     = Some 2
  /\ (4 - 0 + 5) mod 5 + 2 - (5 - 1) = 2
  /\ persisted "tail"
       (snd (LFRingWrite demo_exceed (item x05 ++ item x06) 2 full4))
     <> Some ((0 + 2) mod 5).
Proof. by vm_compute. Qed.

(** C3 as stated fails: a request for exactly [N - 1] items, the usable
    capacity, is accepted.  On the fresh five-slot buffer a write of four
    items returns 4 and moves the persisted head from 0 to 4, whatever
    value the rejection code has. *)
Lemma LFRingWrite_accepts_usable_capacity :
  item_num (meta fresh5) = 5
  /\ fst (LFRingWrite demo_exceed
            (item x01 ++ item x02 ++ item x03 ++ item x04) 4 fresh5) = 4
  /\ persisted "head" fresh5 = Some 0
  /\ persisted "head"
       (snd (LFRingWrite demo_exceed
               (item x01 ++ item x02 ++ item x03 ++ item x04) 4 fresh5))
     = Some 4.
Proof. by vm_compute. Qed.

(** C3, amended.  A single [LFRingWrite] of more than [N - 1] items fails
    with the capacity code and changes nothing outside the struct: NVS
    (so the persisted head and tail), the block file and the call log are
    as before. *)
Theorem LFRingWrite_over_capacity_rejected E data num s :
  1 <= item_num (meta s) < 2 ^ 32 ->
  num > item_num (meta s) - 1 ->
  fst (LFRingWrite E data num s) = - E
  /\ env (snd (LFRingWrite E data num s)) = env s
  /\ persisted "head" (snd (LFRingWrite E data num s)) = persisted "head" s
  /\ persisted "tail" (snd (LFRingWrite E data num s)) = persisted "tail" s.
Proof.
  intros HN Hnum.
  rewrite LFRingWrite_run; cbn zeta; cbn [meta env].
  destruct (loaded_meta_geometry (meta s) (env s)) as (_ & Hns & _ & HNl).
  rewrite HNl, u32_id by lia.
  destruct (Z.gtb_spec num (item_num (meta s) - 1)) as [_|?]; [|lia].
  unfold persisted; cbn [fst snd meta env]. rewrite Hns. done.
Qed.

(** The amended C3 on the buffer of three items: five items are refused. *)
Lemma LFRingWrite_over_capacity_rejected_witness :
  fst (LFRingWrite demo_exceed
         (item x01 ++ item x02 ++ item x03 ++ item x04 ++ item x05) 5 three_in)
  = - demo_exceed
  /\ env (snd (LFRingWrite demo_exceed
         (item x01 ++ item x02 ++ item x03 ++ item x04 ++ item x05) 5 three_in))
     = env three_in.
Proof.
  destruct (LFRingWrite_over_capacity_rejected demo_exceed
              (item x01 ++ item x02 ++ item x03 ++ item x04 ++ item x05)
              5 three_in) as (H1 & H2 & _).
  - by vm_compute.
  - by vm_compute.
  - exact (conj H1 H2).
Defined.

(** C4.  Start from a first [LFRingInit] that succeeds with nothing
    persisted for the namespace, on a volume that can hold the block file
    (which is smaller than 2 GiB).  Write [k <= N - 1] items in any number
    of [LFRingWrite] calls, each given the bytes of its items: every call
    returns its count, and a following [LFRingRead] of [k] items returns
    [k] and exactly the bytes written, in the order written. *)
Theorem fifo_round_trip E rootdir ns sz N m0 w batches :
  nvs w !! substring 0 (NVS_KEY_NAME_MAX_SIZE - 1) ns = None ->
  fst (LFRingInit rootdir ns sz N {| meta := m0; env := w |}) = LFRB_OK ->
  0 < sz -> N * sz < 2 ^ 31 -> N * sz <= Z.of_nat (fs_capacity w) ->
  Forall (fun b => 0 <= snd b /\ Z.of_nat (length (fst b)) = snd b * sz)
    batches ->
  total_items batches <= N - 1 ->
  fst (write_all E batches
         (snd (LFRingInit rootdir ns sz N {| meta := m0; env := w |})))
  = map snd batches
  /\ fst (LFRingRead (total_items batches)
            (snd (write_all E batches
                    (snd (LFRingInit rootdir ns sz N
                            {| meta := m0; env := w |})))))
     = (total_items batches, concat (map fst batches)).
Proof.
  intros Hfresh Hok Hsz Hbytes Hcap Hall Htotal.
  destruct (LFRingInit_fresh rootdir ns sz N m0 w Hfresh Hok)
    as (Hready & _ & Hw & ->).
  destruct (fresh_state_at_rest rootdir ns sz N m0 w Hready Hw)
    as [Hrest Hcap0].
  pose proof (total_items_nonneg sz batches Hall) as Hnn.
  destruct (write_all_fills E sz N batches Hsz Hbytes Hall _ 0 [] Hrest)
    as (Hrets & Hfinal & Hlen); try (cbn [length]; lia).
  split; [exact Hrets|].
  rewrite Z.add_0_l in Hfinal, Hlen. cbn [app] in Hfinal, Hlen.
  apply (LFRingRead_drains sz N); auto; lia.
Qed.

(** C4 on the fresh five-slot buffer: three items, then one, read back as
    four. *)
Lemma fifo_round_trip_witness :
  fst (LFRingRead 4
         (snd (write_all demo_exceed
                 [(item x01 ++ item x02 ++ item x03, 3); (item x04, 1)]
                 fresh5)))
  = (4, item x01 ++ item x02 ++ item x03 ++ item x04).
Proof.
  destruct (fifo_round_trip demo_exceed "root" "root" 4 5 blank_meta
              demo_world
              [(item x01 ++ item x02 ++ item x03, 3); (item x04, 1)])
    as [_ H].
  1-5: by vm_compute.
  - repeat constructor; by vm_compute.
  - by vm_compute.
  - exact H.
Defined.

(** C5.  An accepted [LFRingWrite] of [num] items that finds the head at
    slot [h] of an [N]-slot buffer calls the block layer once, for [num]
    items at slot [h], when [num <= N - h]; otherwise it calls it exactly
    twice: for [N - h] items at slot [h], then for [num - (N - h)] items at
    slot 0. *)
Theorem LFRingWrite_block_writes E data num s :
  let m := loaded_meta (meta s) (env s) in
  let N := item_num m in
  let h := head m in
  1 <= N < 2 ^ 32 -> 0 <= h <= N -> 0 <= num <= N - 1 ->
  blk_log (env (snd (LFRingWrite E data num s)))
  = blk_log (env s)
    ++ (if num <=? N - h then [WriteSlots h num]
        else [WriteSlots h (N - h); WriteSlots 0 (num - (N - h))]).
Proof.
  intros m N h HN Hh Hnum.
  rewrite LFRingWrite_run; cbn zeta; cbn [meta env]. fold m N.
  rewrite (u32_id (N - 1)) by lia.
  destruct (Z.gtb_spec num (N - 1)) as [?|_]; [lia|].
  set (r := placed data num {| meta := m; env := env s |}).
  cbn [snd env].
  destruct (saved_env_frame (advanced (fst r) (meta (snd r))) (env (snd r)))
    as (_ & _ & _ & _ & _ & ->).
  subst r. unfold placed; cbn [meta env]; cbn zeta. fold N h.
  rewrite (u32_id (N - h)) by lia.
  rewrite Z.geb_leb.
  destruct (Z.leb_spec num (N - h)) as [Hfit|Hsplit]; cbn [snd].
  - rewrite ringbuf_write_log. reflexivity.
  - rewrite !ringbuf_write_log; cbn [meta env head with_head].
    rewrite u32_s32, u32_sub_s32, !u32_id by lia.
    rewrite ringbuf_write_log; cbn [meta env].
    rewrite <- app_assoc. reflexivity.
Qed.

(** C5 on the drained buffer: three items at head 3 of 5 are split 2 + 1. *)
Lemma LFRingWrite_block_writes_witness :
  blk_log (env (snd (LFRingWrite demo_exceed
                       (item x04 ++ item x05 ++ item x06) 3 drained)))
  = blk_log (env drained) ++ [WriteSlots 3 2; WriteSlots 0 1].
Proof.
  apply (LFRingWrite_block_writes demo_exceed
           (item x04 ++ item x05 ++ item x06) 3 drained); by vm_compute.
Defined.

(** C6 as stated fails: the count passed to the block layer is the
    caller's, not [min(count, N)].  A read of seven items from the
    five-slot buffer calls the block layer for seven items at the tail. *)
Lemma LFRingRead_requests_unclamped_count :
  item_num (meta three_in) = 5
  /\ blk_log (env three_in) = [WriteSlots 0 3]
  /\ blk_log (env (snd (LFRingRead 7 three_in)))
     = [WriteSlots 0 3; ReadSlots 0 7]
  /\ ReadSlots 0 7 <> ReadSlots 0 (Z.min 7 5).
Proof. by vm_compute. Qed.

(** C6, amended.  On a non-empty buffer whose block file opens,
    [LFRingRead] calls the block layer once, for the caller's [num] items
    at slot [tail], with no split at the wrap boundary: it returns the [n]
    complete items that one [fread] finds from the tail on, so at most
    [num] and never past the end of the file -- on a file of at most [N]
    slots, [tail + n <= N].  It then sets [tail = (tail + n) mod N],
    persists the metadata and returns [n]. *)
Theorem LFRingRead_single_block_read num s c :
  let m := loaded_meta (meta s) (env s) in
  let N := item_num m in
  let t := tail m in
  let sz := item_size m in
  let r := fread c (Z.to_nat (t * sz)) sz num in
  let s' := snd (LFRingRead num s) in
  tail m <> head m ->
  block_file s = Some c ->
  0 < sz -> 0 <= t < N -> t * sz < 2 ^ 31 -> N < 2 ^ 32 ->
  Z.of_nat (length c) < 2 ^ 31 -> 0 <= num ->
  blk_log (env s') = blk_log (env s) ++ [ReadSlots t num]
  /\ fst (LFRingRead num s) = (snd r, fst r)
  /\ 0 <= snd r <= num
  /\ t * sz + snd r * sz <= Z.max (t * sz) (Z.of_nat (length c))
  /\ (Z.of_nat (length c) <= N * sz -> t + snd r <= N)
  /\ tail (meta s') = (t + snd r) mod N
  /\ head (meta s') = head m
  /\ (nvs_ready (env s) = true ->
      persisted "tail" s' = Some ((t + snd r) mod N)
      /\ persisted "head" s' = Some (head m)).
Proof.
  intros m N t sz r s' Hne Hfile Hsz Ht Hpos HN Hlen Hnum.
  destruct (fread_bounds c (Z.to_nat (t * sz)) sz num Hsz Hnum)
    as [Hn Hfit]. fold r in Hn, Hfit.
  subst s'. unfold r, sz, t, N, m.
  rewrite (LFRingRead_open num s c) by assumption.
  fold m N t sz r. cbn [fst snd meta env tail head with_tail].
  split; [apply saved_env_frame|].
  split; [reflexivity|].
  split; [exact Hn|].
  split; [lia|].
  split; [intros Hcap; nia|].
  split; [reflexivity|].
  split; [reflexivity|].
  intros Hready.
  destruct (saved_env_persisted (with_tail ((t + snd r) mod N) m)
              (logged (ReadSlots t num) (env s))
              {| meta := with_tail ((t + snd r) mod N) m;
                 env := saved_env (with_tail ((t + snd r) mod N) m)
                          (logged (ReadSlots t num) (env s)) |})
    as (Hh & Htl & _); auto.
Qed.

(** The amended C6 on the buffer of three items: a read of seven returns
    the three that the file holds. *)
Lemma LFRingRead_single_block_read_witness :
  fst (LFRingRead 7 three_in) = (3, item x01 ++ item x02 ++ item x03)
  /\ tail (meta (snd (LFRingRead 7 three_in))) = 3.
Proof.
  destruct (LFRingRead_single_block_read 7 three_in
              (item x01 ++ item x02 ++ item x03))
    as (_ & H1 & _ & _ & _ & H2 & _).
  1-8: by vm_compute.
  exact (conj H1 H2).
Defined.

(** C7: the code departs from the claim when the block file cannot be
    opened even after the reset.  [ringbuf_write] has persisted head =
    tail = 0 and returns -LFRB_NFILE_ERROR, but [LFRingWrite] goes on to
    lines 418-433 with n = -4: as a [uint32_t] that is 4294967292, so the
    head becomes 4294967292 mod 5 = 2, the tail 4294967288 mod 5 = 3, and
    these are what NVS holds when -4 is returned.  A request that wraps
    adds two failures and returns -8, which is no error code. *)
Theorem LFRingWrite_failure_overwrites_reset :
  item_num (meta volume_lost) = 5
  /\ block_file volume_lost = None
  /\ fst (ringbuf_write (item x04) 1 volume_lost) = - LFRB_NFILE_ERROR
  /\ persisted "head" (snd (ringbuf_write (item x04) 1 volume_lost)) = Some 0
  /\ persisted "tail" (snd (ringbuf_write (item x04) 1 volume_lost)) = Some 0
  /\ fst (LFRingWrite demo_exceed (item x04) 1 volume_lost)
     = - LFRB_NFILE_ERROR
  /\ persisted "head" (snd (LFRingWrite demo_exceed (item x04) 1 volume_lost))
     = Some 2
  /\ persisted "tail" (snd (LFRingWrite demo_exceed (item x04) 1 volume_lost))
     = Some 3
  /\ fst (LFRingWrite demo_exceed (item x04 ++ item x05 ++ item x06) 3
            volume_lost) = -8.
Proof. by vm_compute. Qed.

(** C8 as stated fails: [init_ringbuf_lfs] tests [head == 0 && tail == 0],
    not [head == tail].  After three items were written and read
    back, head = tail = 3 is persisted; the next [LFRingInit] with the same
    configuration succeeds, the buffer reports empty, and the three old
    records are still in the block file. *)
Lemma LFRingInit_keeps_file_when_empty_off_origin :
  fst (LFRingInit "root" "root" 4 5 restarted) = LFRB_OK
  /\ head (meta (snd (LFRingInit "root" "root" 4 5 restarted))) = 3
  /\ tail (meta (snd (LFRingInit "root" "root" 4 5 restarted))) = 3
  /\ fst (LFRingIsEmpty (snd (LFRingInit "root" "root" 4 5 restarted))) = 1
  /\ block_file (snd (LFRingInit "root" "root" 4 5 restarted))
     = Some (item x01 ++ item x02 ++ item x03).
Proof. by vm_compute. Qed.

(** C8, amended.  A successful [LFRingInit] creates or truncates the
    block file to empty exactly when the metadata it loaded or reset has
    head = 0 and tail = 0; in every other state, the empty ones with
    head = tail <> 0 included, it leaves all files as they were. *)
Theorem LFRingInit_truncates_at_origin rootdir ns sz n s0 :
  fst (LFRingInit rootdir ns sz n s0) = LFRB_OK ->
  (head (meta (snd (LFRingInit rootdir ns sz n s0))) = 0
   /\ tail (meta (snd (LFRingInit rootdir ns sz n s0))) = 0 ->
   block_file (snd (LFRingInit rootdir ns sz n s0)) = Some [])
  /\ (~ (head (meta (snd (LFRingInit rootdir ns sz n s0))) = 0
         /\ tail (meta (snd (LFRingInit rootdir ns sz n s0))) = 0) ->
      fs_files (env (snd (LFRingInit rootdir ns sz n s0))) = fs_files (env s0)).
Proof.
  rewrite LFRingInit_run; cbn zeta.
  pose proof (init_meta_result_files ns sz n s0) as Hfiles.
  destruct (init_meta_result ns sz n s0) as [status s1]; cbn [fst snd] in *.
  destruct (Z.ltb_spec status 0) as [Hneg|_]; cbn [fst snd].
  { intros ->. discriminate. }
  unfold init_lfs_result.
  destruct (bool_decide _); [|discriminate]. cbn zeta.
  destruct (_ && _) eqn:Horigin; cbn [fst snd meta env].
  - destruct (fs_writable (env s1)) eqn:Hw; [|discriminate]. intros _.
    apply andb_prop in Horigin as [Hh Ht].
    apply Z.eqb_eq in Hh, Ht. split; [|tauto].
    intros _. unfold block_file, truncated; cbn [meta env]. rewrite Hw.
    cbn [fs_files with_fs_files]. apply lookup_insert_eq.
  - intros _. split; [|by intros _].
    intros [Hh Ht]. rewrite Hh, Ht in Horigin. discriminate.
Qed.

(** The amended C8 at power-on: the first [LFRingInit] leaves an empty
    block file. *)
Lemma LFRingInit_truncates_at_origin_witness :
  block_file (snd (LFRingInit "root" "root" 4 5 power_on)) = Some [].
Proof.
  destruct (LFRingInit_truncates_at_origin "root" "root" 4 5 power_on
              eq_refl) as [H _].
  exact (H (conj eq_refl eq_refl)).
Defined.

(** C9.  After a first [LFRingInit] that succeeds on an NVS partition with
    nothing stored for the namespace, [LFRingIsEmpty] returns 1 and
    [LFRingRead] returns 0 items.  In every state whose reloaded head and
    tail are equal, [LFRingRead] returns 0, stores nothing in [out_data]
    and runs no recovery: it leaves NVS, the file system and the call log
    as they were, and the struct as reloaded. *)
Theorem empty_buffer_reads_nothing :
  (forall rootdir ns sz n m0 w num,
     nvs w !! substring 0 (NVS_KEY_NAME_MAX_SIZE - 1) ns = None ->
     fst (LFRingInit rootdir ns sz n {| meta := m0; env := w |}) = LFRB_OK ->
     let s := snd (LFRingInit rootdir ns sz n {| meta := m0; env := w |}) in
     fst (LFRingIsEmpty s) = 1
     /\ fst (LFRingRead num s) = (0, [])
     /\ env (snd (LFRingRead num s)) = env s)
  /\ (forall s num,
        tail (loaded_meta (meta s) (env s))
        = head (loaded_meta (meta s) (env s)) ->
        fst (LFRingRead num s) = (0, [])
        /\ env (snd (LFRingRead num s)) = env s
        /\ meta (snd (LFRingRead num s)) = loaded_meta (meta s) (env s)).
Proof.
  assert (Hempty : forall s num,
            tail (loaded_meta (meta s) (env s))
            = head (loaded_meta (meta s) (env s)) ->
            fst (LFRingRead num s) = (0, [])
            /\ env (snd (LFRingRead num s)) = env s
            /\ meta (snd (LFRingRead num s)) = loaded_meta (meta s) (env s)).
  { intros s num Heq. rewrite LFRingRead_run; cbn zeta; cbn [meta env].
    rewrite Heq, Z.eqb_refl. done. }
  split; [|exact Hempty].
  intros rootdir ns sz n m0 w num Hfresh Hok s.
  destruct (LFRingInit_fresh rootdir ns sz n m0 w Hfresh Hok)
    as (Hready & _ & _ & Hs).
  subst s. rewrite Hs.
  destruct (fresh_state_persisted rootdir ns sz n m0 w Hready)
    as (Hr & Hh & Ht & _).
  destruct (loaded_meta_persisted _ 0 0 Hr Hh Ht) as [Hopen Hload].
  split.
  - rewrite LFRingIsEmpty_run, Hopen; cbn zeta. rewrite Hload. reflexivity.
  - destruct (Hempty _ num (eq_trans (f_equal tail Hload)
                              (eq_sym (f_equal head Hload)))) as (? & ? & _).
    done.
Qed.

(** C9 on the fresh buffer, and on the buffer drained at slot 3. *)
Lemma empty_buffer_reads_nothing_witness :
  fst (LFRingIsEmpty fresh5) = 1
  /\ fst (LFRingRead 2 fresh5) = (0, [])
  /\ fst (LFRingRead 2 drained) = (0, []).
Proof.
  destruct empty_buffer_reads_nothing as [Hfresh Hempty].
  destruct (Hfresh "root"%string "root"%string 4 5 blank_meta demo_world 2
              eq_refl eq_refl) as (H1 & H2 & _).
  destruct (Hempty drained 2 eq_refl) as (H3 & _).
  exact (conj H1 (conj H2 H3)).
Defined.

(** C10.  [ringbuf_write], [ringbuf_read], [LFRingWrite] and [LFRingRead]
    never change the root, the namespace, [item_size] or [item_num] of the
    struct.  When the block file cannot be opened, the recovery reset in
    [ringbuf_write] and [ringbuf_read] zeroes the head and the tail only,
    and what it persists in NVS is the unchanged [item_size] and
    [item_num] next to head = tail = 0. *)
Theorem recovery_reset_keeps_geometry E data num s :
  (geometry (meta (snd (ringbuf_write data num s))) = geometry (meta s)
   /\ geometry (meta (snd (ringbuf_read num s))) = geometry (meta s)
   /\ geometry (meta (snd (LFRingWrite E data num s))) = geometry (meta s)
   /\ geometry (meta (snd (LFRingRead num s))) = geometry (meta s))
  /\ (block_file s = None ->
      forall st, st = snd (ringbuf_write data num s)
                 \/ st = snd (ringbuf_read num s) ->
      item_size (meta st) = item_size (meta s)
      /\ item_num (meta st) = item_num (meta s)
      /\ head (meta st) = 0
      /\ tail (meta st) = 0
      /\ (nvs_ready (env s) = true ->
          persisted "size" st = Some (item_size (meta s))
          /\ persisted "num" st = Some (item_num (meta s))
          /\ persisted "head" st = Some 0
          /\ persisted "tail" st = Some 0)).
Proof.
  split.
  { auto using ringbuf_write_geometry, ringbuf_read_geometry,
      LFRingWrite_geometry, LFRingRead_geometry. }
  intros Hnone st Hst.
  assert (Hmeta : meta st
                  = reset_to (item_size (meta s)) (item_num (meta s)) (meta s)).
  { destruct Hst as [-> | ->].
    - rewrite ringbuf_write_meta, Hnone. reflexivity.
    - rewrite ringbuf_read_meta, Hnone. reflexivity. }
  rewrite Hmeta; cbn [reset_to item_size item_num head tail].
  do 4 (split; [reflexivity|]).
  intros Hready.
  assert (Hnvs : exists e,
             nvs (env st)
             = nvs (saved_env
                      (reset_to (item_size (meta s)) (item_num (meta s))
                         (meta s))
                      (logged e (env s)))).
  { destruct Hst as [-> | ->].
    - eexists. rewrite ringbuf_write_run, Hnone; cbn zeta.
      destruct (block_file (recovered _ _));
        cbn [snd stored env with_fs_files nvs]; apply recovered_nvs.
    - eexists. rewrite ringbuf_read_run, Hnone; cbn zeta; cbn [snd].
      apply recovered_nvs. }
  destruct Hnvs as [e Hnvs].
  destruct (saved_env_persisted
              (reset_to (item_size (meta s)) (item_num (meta s)) (meta s))
              (logged e (env s)) st) as (Hh & Ht & Hs & Hn); auto.
  - by rewrite Hmeta.
Qed.

(** C10 when the volume is lost: the recovery of [ringbuf_read] keeps four
    bytes by five slots. *)
Lemma recovery_reset_keeps_geometry_witness :
  item_size (meta (snd (ringbuf_read 1 volume_lost))) = 4
  /\ item_num (meta (snd (ringbuf_read 1 volume_lost))) = 5
  /\ head (meta (snd (ringbuf_read 1 volume_lost))) = 0
  /\ persisted "num" (snd (ringbuf_read 1 volume_lost)) = Some 5.
Proof.
  destruct (recovery_reset_keeps_geometry demo_exceed [] 1 volume_lost)
    as [_ H].
  destruct (H eq_refl (snd (ringbuf_read 1 volume_lost)) (or_intror eq_refl))
    as (Hs & Hn & Hh & _ & Hp).
  destruct (Hp eq_refl) as (_ & Hpn & _).
  exact (conj Hs (conj Hn (conj Hh Hpn))).
Defined.

(** * Further properties of the engine *)

(** ** Metadata in NVS *)

(** X1.  What [save_ringbuf_meta] stores, [load_ringbuf_meta] brings back:
    after a save on a usable NVS partition, loading into any struct with
    the same namespace succeeds and sets its head and tail to the saved
    ones.  The load leaves [item_size] and [item_num] of that struct as
    they were: it does not read the "size" and "num" keys. *)
Theorem save_then_load_restores m w m2 :
  nvs_ready w = true ->
  0 <= head m < 2 ^ 32 -> 0 <= tail m < 2 ^ 32 ->
  nvs_namespace m2 = nvs_namespace m ->
  fst (save_ringbuf_meta {| meta := m; env := w |}) = LFRB_OK
  /\ load_ringbuf_meta
       {| meta := m2;
          env := env (snd (save_ringbuf_meta {| meta := m; env := w |})) |}
     = (LFRB_OK,
        {| meta := with_tail (tail m) (with_head (head m) m2);
           env := env (snd (save_ringbuf_meta {| meta := m; env := w |})) |}).
Proof.
  intros Hready Hh Ht Hns.
  rewrite save_ringbuf_meta_status, save_ringbuf_meta_state; cbn [meta env].
  rewrite Hready. split; [reflexivity|].
  set (w' := saved_env m w).
  destruct (saved_env_frame m w) as (Hready' & _).
  destruct (saved_env_persisted m w {| meta := m2; env := w' |})
    as (Hph & Hpt & _); auto.
  destruct (loaded_meta_persisted {| meta := m2; env := w' |} (head m) (tail m))
    as [Hopen Hload]; auto.
  { cbn [env]. subst w'. congruence. }
  rewrite !u32_id in Hload by lia. cbn [meta env] in Hopen, Hload.
  rewrite (surjective_pairing (load_ringbuf_meta _)).
  rewrite load_ringbuf_meta_state; cbn [meta env]. rewrite Hload.
  f_equal. unfold load_ringbuf_meta. run_step. by rewrite Hopen.
Qed.

(** X1 on the buffer of three items: a blank struct named "root" reloads
    head = 3 and tail = 0. *)
Lemma save_then_load_restores_witness :
  load_ringbuf_meta
    {| meta := with_nvs_namespace "root" blank_meta;
       env := env (snd (save_ringbuf_meta
                          {| meta := meta three_in; env := env three_in |})) |}
  = (LFRB_OK,
     {| meta := with_tail (tail (meta three_in))
                  (with_head (head (meta three_in))
                     (with_nvs_namespace "root" blank_meta));
        env := env (snd (save_ringbuf_meta
                           {| meta := meta three_in;
                              env := env three_in |})) |}).
Proof.
  apply (save_then_load_restores (meta three_in) (env three_in)
           (with_nvs_namespace "root" blank_meta)); by vm_compute.
Defined.



(** ** Initialisation *)

(** X3.  A restart with the configuration that is persisted: when NVS
    holds head, tail, "size" and "num" for the namespace and the stored
    size and count are the ones passed, [LFRingInit] succeeds and loads
    the head and tail into the struct, whatever the struct held.  If they
    are not both zero it writes nothing: NVS and every file are left as
    they were. *)
Theorem LFRingInit_restart rootdir ns sz n m0 w kv h t :
  nvs_ready w = true ->
  nvs w !! substring 0 (NVS_KEY_NAME_MAX_SIZE - 1) ns = Some kv ->
  kv !! "head" = Some h -> kv !! "tail" = Some t ->
  kv !! "size" = Some sz -> kv !! "num" = Some n ->
  0 <= h < 2 ^ 32 -> 0 <= t < 2 ^ 32 ->
  0 <= sz < 2 ^ 32 -> 0 <= n < 2 ^ 32 ->
  rootdir ∈ fs_dirs w ->
  ~ (h = 0 /\ t = 0) ->
  LFRingInit rootdir ns sz n {| meta := m0; env := w |}
  = (LFRB_OK,
     {| meta := {| root := substring 0 (ESP_VFS_PATH_MAX - 1) rootdir;
                   nvs_namespace :=
                     substring 0 (NVS_KEY_NAME_MAX_SIZE - 1) ns;
                   head := h; tail := t; item_size := sz; item_num := n |};
        env := w |}).
Proof.
  intros Hready Hns Hh Ht Hsz Hn Hhr Htr Hszr Hnr Hroot Horigin.
  rewrite LFRingInit_run.
  rewrite (init_meta_result_found ns sz n m0 w kv h t sz n) by assumption.
  cbn zeta. rewrite !Z.eqb_refl. cbn [negb orb fst snd].
  change (LFRB_OK <? 0) with false. cbn match.
  unfold init_lfs_result; cbn [meta env]. rewrite bool_decide_eq_true_2 by done.
  cbn zeta. cbn [head tail with_root].
  destruct (Z.eqb_spec h 0) as [->|?], (Z.eqb_spec t 0) as [->|?];
    cbn [andb]; try reflexivity.
  by destruct Horigin.
Qed.

(** X3 after three items were written and read back (head = tail = 3): a
    blank struct is brought back to that position and nothing is written. *)
Lemma LFRingInit_restart_witness :
  LFRingInit "root" "root" 4 5 {| meta := blank_meta; env := env drained |}
  = (LFRB_OK,
     {| meta := {| root := "root"; nvs_namespace := "root"; head := 3;
                   tail := 3; item_size := 4; item_num := 5 |};
        env := env drained |}).
Proof.
  apply (LFRingInit_restart "root" "root" 4 5 blank_meta (env drained)
           {["head"%string := 3; "tail"%string := 3; "size"%string := 4;
             "num"%string := 5]} 3 3); try by vm_compute.
  intros [? _]; discriminate.
Defined.



(** X5.  Without a usable NVS partition [LFRingInit] fails with
    -LFRB_NVS_ERROR before it looks at the file system: the root path is
    not checked or stored, no file is created or truncated, and nothing
    else in the environment changes. *)
Theorem LFRingInit_without_nvs rootdir ns sz n s :
  nvs_ready (env s) = false ->
  fst (LFRingInit rootdir ns sz n s) = - LFRB_NVS_ERROR
  /\ env (snd (LFRingInit rootdir ns sz n s)) = env s
  /\ root (meta (snd (LFRingInit rootdir ns sz n s))) = root (meta s).
Proof.
  intros Hready. rewrite LFRingInit_run; cbn zeta.
  pose proof (init_meta_result_status ns sz n s) as Hst.
  rewrite Hready in Hst. rewrite Hst.
  change (- LFRB_NVS_ERROR <? 0) with true. cbn match.
  split; [exact Hst|]. split; [|apply init_meta_result_frame].
  unfold init_meta_result; cbn zeta. unfold nvs_open_readonly.
  rewrite Hready. cbn [andb snd env]. unfold saved_env. by rewrite Hready.
Qed.

(** X5 with the NVS partition of the demonstration world switched off. *)
Lemma LFRingInit_without_nvs_witness :
  fst (LFRingInit "root" "root" 4 5
         {| meta := blank_meta;
            env := {| nvs_ready := false; nvs := ∅;
                      fs_dirs := {["root"%string]};
                      fs_writable := true; fs_capacity := 1000;
                      fs_files := ∅; blk_log := [] |} |})
  = - LFRB_NVS_ERROR.
Proof.
  apply (LFRingInit_without_nvs "root" "root" 4 5
           {| meta := blank_meta;
              env := {| nvs_ready := false; nvs := ∅;
                        fs_dirs := {["root"%string]};
                        fs_writable := true; fs_capacity := 1000;
                        fs_files := ∅; blk_log := [] |} |}).
  reflexivity.
Defined.

(** X6.  When the root path is not found, [LFRingInit] returns
    -LFRB_ROOT_NOT_FOUND_ERROR and touches no file, but the metadata step
    has already run: the state is the one [init_ringbuf_meta] leaves, the
    root field of the struct is not set, and on a partition that held
    nothing for the namespace NVS now holds head = tail = 0 with the size
    and count passed. *)
Theorem LFRingInit_root_not_found rootdir ns sz n s :
  nvs_ready (env s) = true ->
  rootdir ∉ fs_dirs (env s) ->
  LFRingInit rootdir ns sz n s
  = (- LFRB_ROOT_NOT_FOUND_ERROR, snd (init_ringbuf_meta ns sz n s))
  /\ fs_files (env (snd (LFRingInit rootdir ns sz n s))) = fs_files (env s)
  /\ root (meta (snd (LFRingInit rootdir ns sz n s))) = root (meta s)
  /\ (nvs (env s) !! substring 0 (NVS_KEY_NAME_MAX_SIZE - 1) ns = None ->
      persisted "head" (snd (LFRingInit rootdir ns sz n s)) = Some 0
      /\ persisted "tail" (snd (LFRingInit rootdir ns sz n s)) = Some 0
      /\ persisted "size" (snd (LFRingInit rootdir ns sz n s)) = Some sz
      /\ persisted "num" (snd (LFRingInit rootdir ns sz n s)) = Some n).
Proof.
  intros Hready Hroot.
  assert (Hrun : LFRingInit rootdir ns sz n s
                 = (- LFRB_ROOT_NOT_FOUND_ERROR,
                    snd (init_meta_result ns sz n s))).
  { rewrite LFRingInit_run; cbn zeta.
    rewrite init_meta_result_status, Hready.
    change (LFRB_OK <? 0) with false. cbn match.
    unfold init_lfs_result.
    destruct (init_meta_result_frame ns sz n s) as (-> & _).
    by rewrite bool_decide_eq_false_2. }
  rewrite Hrun, init_ringbuf_meta_run. cbn [snd].
  split; [reflexivity|]. split; [apply init_meta_result_files|].
  split; [apply init_meta_result_frame|].
  intros Hfresh. destruct s as [m0 w]; cbn [meta env] in *.
  rewrite init_meta_result_fresh by done. cbn zeta; cbn [snd].
  set (m := reset_to sz n _).
  by apply (saved_env_persisted m w).
Qed.

(** X6 at power-on, asking for a root that does not exist. *)
Lemma LFRingInit_root_not_found_witness :
  fst (LFRingInit "flash" "root" 4 5 power_on) = - LFRB_ROOT_NOT_FOUND_ERROR
  /\ persisted "num" (snd (LFRingInit "flash" "root" 4 5 power_on)) = Some 5.
Proof.
  destruct (LFRingInit_root_not_found "flash" "root" 4 5 power_on)
    as (H1 & _ & _ & H2).
  - reflexivity.
  - by vm_compute.
  - destruct (H2 eq_refl) as (_ & _ & _ & H3).
    exact (conj (f_equal fst H1) H3).
Defined.

(** ** Names and paths *)

(** X7.  The namespace is cut to the 15 characters that the struct can
    hold ([strncpy] at line 55): [LFRingInit] with a name and with its
    first 15 characters give the same result and the same state, so two
    names that agree on their first 15 characters denote one buffer. *)
Theorem LFRingInit_namespace_cut rootdir ns1 ns2 sz n s :
  substring 0 (NVS_KEY_NAME_MAX_SIZE - 1) ns1
  = substring 0 (NVS_KEY_NAME_MAX_SIZE - 1) ns2 ->
  LFRingInit rootdir ns1 sz n s = LFRingInit rootdir ns2 sz n s.
Proof.
  intros Hcut. rewrite !LFRingInit_run.
  assert (init_meta_result ns1 sz n s = init_meta_result ns2 sz n s) as ->;
    [|reflexivity].
  unfold init_meta_result. by rewrite Hcut.
Qed.

(** X7 with two names of 19 characters that differ in the 16th. *)
Lemma LFRingInit_namespace_cut_witness :
  LFRingInit "root" "temperature_log_one" 4 5 power_on
  = LFRingInit "root" "temperature_log_two" 4 5 power_on.
Proof.
  apply (LFRingInit_namespace_cut "root" "temperature_log_one"
           "temperature_log_two" 4 5 power_on).
  reflexivity.
Defined.

(** X8.  Once [LFRingInit] has passed the root check, the block file is
    [root/namespace.bin] for the cut root (14 characters) and namespace
    (15 characters): the 64-byte path buffer never cuts it.  Two structs
    with the same root and such paths share a block file only if their
    namespaces are equal. *)
Theorem block_file_path_of_init rootdir ns sz n s :
  nvs_ready (env s) = true ->
  rootdir ∈ fs_dirs (env s) ->
  ringbuf_get_path (meta (snd (LFRingInit rootdir ns sz n s)))
  = String.append (substring 0 (ESP_VFS_PATH_MAX - 1) rootdir)
      (String.append "/"
         (String.append (substring 0 (NVS_KEY_NAME_MAX_SIZE - 1) ns) ".bin"))
  /\ (forall m1 m2,
        (String.length (root m1) <= ESP_VFS_PATH_MAX - 1)%nat ->
        (String.length (nvs_namespace m1) <= NVS_KEY_NAME_MAX_SIZE - 1)%nat ->
        (String.length (nvs_namespace m2) <= NVS_KEY_NAME_MAX_SIZE - 1)%nat ->
        root m2 = root m1 ->
        ringbuf_get_path m1 = ringbuf_get_path m2 ->
        nvs_namespace m1 = nvs_namespace m2).
Proof.
  intros Hready Hroot. split.
  - assert (Hmeta : root (meta (snd (LFRingInit rootdir ns sz n s)))
                    = substring 0 (ESP_VFS_PATH_MAX - 1) rootdir
                    /\ nvs_namespace (meta (snd (LFRingInit rootdir ns sz n s)))
                       = substring 0 (NVS_KEY_NAME_MAX_SIZE - 1) ns).
    { rewrite LFRingInit_run; cbn zeta.
      rewrite init_meta_result_status, Hready.
      change (LFRB_OK <? 0) with false. cbn match.
      pose proof (init_meta_result_names ns sz n s) as Hns.
      unfold init_lfs_result.
      destruct (init_meta_result_frame ns sz n s) as (-> & _).
      rewrite bool_decide_eq_true_2 by done. cbn zeta.
      by destruct (_ && _). }
    destruct Hmeta as [Hr Hn].
    rewrite ringbuf_get_path_fits; rewrite ?Hr, ?Hn;
      auto using substring_length_le.
  - intros m1 m2 Hr1 Hn1 Hn2 Hroots Hpath.
    rewrite !ringbuf_get_path_fits in Hpath by congruence.
    rewrite Hroots in Hpath.
    apply String.app_inj in Hpath. apply String.app_inj in Hpath.
    by apply string_append_inj_r in Hpath.
Qed.

(** X8 at power-on: the block file of the demonstration buffer. *)
Lemma block_file_path_of_init_witness :
  ringbuf_get_path (meta (snd (LFRingInit "root" "root" 4 5 power_on)))
  = "root/root.bin"%string.
Proof.
  destruct (block_file_path_of_init "root" "root" 4 5 power_on) as [H _].
  - reflexivity.
  - by vm_compute.
  - exact H.
Defined.

(** ** Invariants of the user layer *)

(** X9.  The indices never leave the ring.  If the head and the tail that
    a call reloads lie in [0, N) for a capacity [N >= 1], then the struct
    that [LFRingWrite] or [LFRingRead] leaves again has both in [0, N),
    and the same size and capacity -- for every request and every
    outcome: rejected, short, failed, recovered or wrapped. *)
Theorem indices_stay_in_ring E data num s :
  1 <= item_num (meta s) ->
  0 <= head (loaded_meta (meta s) (env s)) < item_num (meta s) ->
  0 <= tail (loaded_meta (meta s) (env s)) < item_num (meta s) ->
  forall s',
    s' = snd (LFRingWrite E data num s) \/ s' = snd (LFRingRead num s) ->
    0 <= head (meta s') < item_num (meta s)
    /\ 0 <= tail (meta s') < item_num (meta s)
    /\ item_num (meta s') = item_num (meta s)
    /\ item_size (meta s') = item_size (meta s).
Proof.
  intros HN Hh Ht s' Hs'.
  assert (Hgeo : geometry (meta s') = geometry (meta s)).
  { destruct Hs' as [-> | ->];
      [apply LFRingWrite_geometry | apply LFRingRead_geometry]. }
  unfold geometry in Hgeo. injection Hgeo as _ _ Hsz Hnum.
  split; [|split]; [| |auto].
  all: pose proof (loaded_geometry (meta s) (env s)) as Hgl;
    unfold geometry in Hgl; injection Hgl as _ _ _ HNl.
  all: set (m := loaded_meta (meta s) (env s)) in *.
  all: destruct Hs' as [-> | ->].
  all: rewrite ?LFRingWrite_run, ?LFRingRead_run; cbn zeta; cbn [meta env];
    fold m.
  1,3: destruct (_ >? _); cbn [snd meta]; [assumption|].
  1,2: set (r := placed data num {| meta := m; env := env s |}).
  1,2: destruct (placed_indices data num {| meta := m; env := env s |})
         as [Hh2 Ht2]; fold r in Hh2, Ht2; cbn [meta] in Hh2, Ht2.
  1,2: pose proof (placed_geometry data num {| meta := m; env := env s |})
         as Hg2; fold r in Hg2; unfold geometry in Hg2; cbn [meta] in Hg2;
         injection Hg2 as _ _ _ HN2.
  1,2: destruct (advanced_indices (fst r) (meta (snd r))) as [Ha Hb];
         [lia | destruct Ht2; lia | lia].
  all: destruct (_ =? _); cbn [snd meta]; [assumption|].
  all: pose proof (ringbuf_read_meta num {| meta := m; env := env s |}) as Hm;
    cbn [meta] in Hm.
  all: pose proof (ringbuf_read_geometry num {| meta := m; env := env s |})
         as Hg2; unfold geometry in Hg2; cbn [meta] in Hg2;
         injection Hg2 as _ _ _ HN2.
  - cbn [head with_tail]. rewrite Hm.
    destruct (block_file _); cbn [head reset_to]; lia.
  - cbn [tail with_tail]. rewrite HN2, HNl. apply Z.mod_pos_bound. lia.
Qed.

(** X9 on the write that wraps and on the write that fails. *)
Lemma indices_stay_in_ring_witness :
  (0 <= head (meta (snd (LFRingWrite demo_exceed
                           (item x04 ++ item x05 ++ item x06) 3 drained)))
   < item_num (meta drained))
  /\ (0 <= tail (meta (snd (LFRingWrite demo_exceed (item x04) 1
                              volume_lost)))
      < item_num (meta volume_lost)).
Proof.
  destruct (indices_stay_in_ring demo_exceed
              (item x04 ++ item x05 ++ item x06) 3 drained
              ltac:(by vm_compute) ltac:(by vm_compute) ltac:(by vm_compute)
              _ (or_introl eq_refl)) as (H1 & _).
  destruct (indices_stay_in_ring demo_exceed (item x04) 1 volume_lost
              ltac:(by vm_compute) ltac:(by vm_compute) ltac:(by vm_compute)
              _ (or_introl eq_refl)) as (_ & H2 & _).
  exact (conj H1 H2).
Defined.

(** ** Writing *)



(** ** Isolation *)

(** X11.  A call on one buffer leaves every other buffer alone: whatever
    [LFRingWrite] and [LFRingRead] do -- recovery resets included -- every
    NVS namespace other than the struct's and every file other than its
    block file are as before. *)
Theorem other_buffers_untouched E data num s :
  same_elsewhere (nvs_namespace (meta s)) (ringbuf_get_path (meta s))
    (env s) (env (snd (LFRingWrite E data num s)))
  /\ same_elsewhere (nvs_namespace (meta s)) (ringbuf_get_path (meta s))
       (env s) (env (snd (LFRingRead num s))).
Proof.
  destruct (geometry_names _ _ (loaded_geometry (meta s) (env s)))
    as [Hns Hpath].
  split.
  - rewrite LFRingWrite_run; cbn zeta; cbn [meta env].
    destruct (_ >? _); cbn [snd env]; [apply same_elsewhere_refl|].
    set (s1 := {| meta := loaded_meta (meta s) (env s); env := env s |}).
    set (r := placed data num s1).
    eapply same_elsewhere_trans.
    + rewrite <- Hns, <- Hpath. apply (placed_elsewhere data num s1).
    + destruct (geometry_names (advanced (fst r) (meta (snd r))) (meta s))
        as [Hns' _].
      { rewrite advanced_geometry. subst r.
        rewrite placed_geometry. apply loaded_geometry. }
      rewrite <- Hns'. apply saved_env_elsewhere.
  - rewrite LFRingRead_run; cbn zeta; cbn [meta env].
    destruct (_ =? _); cbn [snd env]; [apply same_elsewhere_refl|].
    set (s1 := {| meta := loaded_meta (meta s) (env s); env := env s |}).
    set (r := ringbuf_read num s1).
    eapply same_elsewhere_trans.
    + rewrite <- Hns, <- Hpath. apply (ringbuf_read_elsewhere num s1).
    + set (m' := with_tail _ _).
      destruct (geometry_names m' (meta s)) as [Hns' _].
      { subst m'. change (geometry (with_tail ?v ?m)) with (geometry m).
        subst r. rewrite ringbuf_read_geometry. apply loaded_geometry. }
      rewrite <- Hns'. apply saved_env_elsewhere.
Qed.

(** ** Reading *)

(** X12.  [LFRingRead] does not write to the file system while the block
    file exists: every file, the block file included, has the content it
    had, and the head is the reloaded one.  Reading consumes by moving the
    tail only. *)
Theorem LFRingRead_only_moves_tail num s c :
  block_file s = Some c ->
  fs_files (env (snd (LFRingRead num s))) = fs_files (env s)
  /\ block_file (snd (LFRingRead num s)) = Some c
  /\ head (meta (snd (LFRingRead num s)))
     = head (loaded_meta (meta s) (env s)).
Proof.
  intros Hfile.
  destruct (geometry_names _ _ (loaded_geometry (meta s) (env s)))
    as [_ Hpath].
  assert (Hfile1 : block_file {| meta := loaded_meta (meta s) (env s);
                                 env := env s |} = Some c).
  { unfold block_file in *. cbn [meta env]. by rewrite Hpath. }
  assert (Hfiles : fs_files (env (snd (LFRingRead num s))) = fs_files (env s)
                   /\ ringbuf_get_path (meta (snd (LFRingRead num s)))
                      = ringbuf_get_path (meta s)
                   /\ head (meta (snd (LFRingRead num s)))
                      = head (loaded_meta (meta s) (env s))).
  { rewrite LFRingRead_run; cbn zeta; cbn [meta env].
    destruct (_ =? _); cbn [snd env meta]; [by rewrite Hpath|].
    rewrite ringbuf_read_run, Hfile1; cbn zeta; cbn [fst snd meta env].
    set (m' := with_tail _ _).
    destruct (saved_env_frame m'
                (logged (ReadSlots (tail (loaded_meta (meta s) (env s))) num)
                   (env s)))
      as (_ & _ & _ & _ & -> & _).
    split; [reflexivity|]. split; [|reflexivity].
    subst m'. unfold ringbuf_get_path in *.
    cbn [root nvs_namespace with_tail]. exact Hpath. }
  destruct Hfiles as (Hf & Hp & Hh).
  split; [exact Hf|]. split; [|exact Hh].
  unfold block_file in *. by rewrite Hf, Hp.
Qed.

(** X12 on the buffer of three items: a read of two leaves the twelve
    bytes in place. *)
Lemma LFRingRead_only_moves_tail_witness :
  block_file (snd (LFRingRead 2 three_in))
  = Some (item x01 ++ item x02 ++ item x03).
Proof.
  destruct (LFRingRead_only_moves_tail 2 three_in
              (item x01 ++ item x02 ++ item x03)) as (_ & H & _).
  - by vm_compute.
  - exact H.
Defined.

(** X13.  Reading from a non-empty buffer whose block file cannot be
    opened empties it.  [LFRingRead] returns 0 items and, with NVS usable,
    persists head = tail = 0 with the unchanged size and capacity, so
    whatever was stored counts as lost and [LFRingIsEmpty] then returns 1;
    on a writable volume the block file is back, empty. *)
Theorem LFRingRead_recovers_empty num s :
  1 <= item_num (meta s) ->
  nvs_ready (env s) = true ->
  block_file s = None ->
  tail (loaded_meta (meta s) (env s)) <> head (loaded_meta (meta s) (env s)) ->
  fst (LFRingRead num s) = (0, [])
  /\ persisted "head" (snd (LFRingRead num s)) = Some 0
  /\ persisted "tail" (snd (LFRingRead num s)) = Some 0
  /\ persisted "size" (snd (LFRingRead num s)) = Some (item_size (meta s))
  /\ persisted "num" (snd (LFRingRead num s)) = Some (item_num (meta s))
  /\ fst (LFRingIsEmpty (snd (LFRingRead num s))) = 1
  /\ (fs_writable (env s) = true ->
      block_file (snd (LFRingRead num s)) = Some []).
Proof.
  intros HN Hready Hnone Hne.
  pose proof (loaded_geometry (meta s) (env s)) as Hgeo.
  destruct (geometry_names _ _ Hgeo) as [Hns Hpath].
  unfold geometry in Hgeo. injection Hgeo as _ _ Hsz Hnum.
  set (m := loaded_meta (meta s) (env s)) in *.
  set (s1 := {| meta := m; env := env s |}).
  assert (Hnone1 : block_file s1 = None).
  { unfold block_file in *. subst s1; cbn [meta env]. by rewrite Hpath. }
  set (m0 := reset_to (item_size m) (item_num m) m).
  set (w1 := truncated m0 (saved_env m0 (logged (ReadSlots (tail m) num)
                                            (env s)))).
  assert (Hrun : LFRingRead num s
                 = ((0, []), {| meta := m0; env := saved_env m0 w1 |})).
  { rewrite LFRingRead_run; cbn zeta; cbn [meta env]. fold m s1.
    destruct (Z.eqb_spec (tail m) (head m)) as [?|_]; [done|].
    rewrite ringbuf_read_run, Hnone1; cbn zeta.
    unfold recovered; cbn zeta; cbn [fst snd meta env]. fold m0 w1.
    change (item_num m0) with (item_num m).
    change (tail m0) with 0. rewrite Z.add_0_l.
    change (u32 0) with 0. rewrite !Zmod_0_l.
    reflexivity. }
  assert (Hready1 : nvs_ready w1 = true).
  { subst w1.
    destruct (truncated_frame m0
                (saved_env m0 (logged (ReadSlots (tail m) num) (env s))))
      as (-> & _).
    destruct (saved_env_frame m0 (logged (ReadSlots (tail m) num) (env s)))
      as (-> & _). exact Hready. }
  rewrite Hrun; cbn [fst snd].
  destruct (saved_env_persisted m0 w1 {| meta := m0; env := saved_env m0 w1 |})
    as (Hh & Ht & Hs & Hn); auto.
  destruct (saved_env_frame m0 w1) as (Hr2 & _ & _ & _ & Hf2 & _).
  split; [reflexivity|].
  split; [exact Hh|]. split; [exact Ht|].
  split; [by rewrite Hs; cbn; rewrite Hsz|].
  split; [by rewrite Hn; cbn; rewrite Hnum|].
  split.
  - rewrite LFRingIsEmpty_run.
    destruct (loaded_meta_persisted {| meta := m0; env := saved_env m0 w1 |}
                0 0) as [-> ->]; auto.
    cbn [env]. congruence.
  - intros Hw. unfold block_file; cbn [meta env]. rewrite Hf2.
    subst w1. unfold truncated.
    destruct (saved_env_frame m0 (logged (ReadSlots (tail m) num) (env s)))
      as (_ & _ & -> & _).
    cbn [logged with_blk_log fs_writable]. rewrite Hw.
    cbn [fs_files with_fs_files]. apply lookup_insert_eq.
Qed.

(** X13 on the buffer of three items after the volume was lost. *)
Lemma LFRingRead_recovers_empty_witness :
  fst (LFRingRead 1 volume_lost) = (0, [])
  /\ persisted "head" (snd (LFRingRead 1 volume_lost)) = Some 0.
Proof.
  destruct (LFRingRead_recovers_empty 1 volume_lost) as (H1 & H2 & _).
  1-4: by vm_compute.
  exact (conj H1 H2).
Defined.

(** ** Recovery while writing *)

(** X14.  When the block file is missing and can be created again,
    [ringbuf_write] resets the metadata, recreates the file and then
    stores the items at the byte offset it computed from the head before
    the reset (line 240 runs before line 250).  An accepted request of
    [c >= 1] items that finds the persisted head at [h] therefore returns
    [c] and persists head = [c], tail = 0, while the new file holds
    [h * item_size] zero bytes followed by the items. *)
Theorem LFRingWrite_recovers_at_old_offset E d c s sz N h t :
  item_size (meta s) = sz -> item_num (meta s) = N ->
  nvs_ready (env s) = true ->
  persisted "head" s = Some h -> persisted "tail" s = Some t ->
  block_file s = None -> fs_writable (env s) = true ->
  0 < sz -> N * sz < 2 ^ 31 -> 0 <= h < N -> 0 <= t < N ->
  1 <= c <= N - 1 -> h + c <= N ->
  Z.of_nat (length d) = c * sz ->
  h * sz + c * sz <= Z.of_nat (fs_capacity (env s)) ->
  fst (LFRingWrite E d c s) = c
  /\ at_rest sz N c 0 (replicate (Z.to_nat (h * sz)) x00 ++ d)
       (snd (LFRingWrite E d c s)).
Proof.
  intros Hsz HN Hready Hh Ht Hnone Hw Hszpos Hbytes Hhr Htr Hc Hfit Hlen Hcap.
  assert (HN31 : N < 2 ^ 31) by nia.
  assert (Hpos : 0 <= h * sz < 2 ^ 31) by nia.
  destruct (loaded_meta_persisted s h t Hready Hh Ht) as [_ Hload].
  rewrite !u32_id in Hload by lia.
  rewrite LFRingWrite_run, Hload; cbn zeta.
  cbn [meta env item_num head tail with_head with_tail]. rewrite HN.
  rewrite (u32_id (N - 1)) by lia.
  destruct (Z.gtb_spec c (N - 1)) as [?|_]; [lia|].
  unfold placed; cbn zeta.
  cbn [meta env item_num head tail with_head with_tail]. rewrite HN.
  rewrite (u32_id (N - h)) by lia. rewrite Z.geb_leb.
  destruct (Z.leb_spec c (N - h)) as [_|?]; [|lia].
  rewrite ringbuf_write_run; cbn zeta.
  change (block_file {| meta := with_tail t (with_head h (meta s));
                        env := env s |}) with (block_file s).
  rewrite Hnone. cbn [meta env head item_size with_head with_tail].
  set (s0 := recovered _ _).
  assert (Hmeta0 : meta s0 = reset_to sz N (meta s)).
  { subst s0. unfold recovered; cbn [meta item_size item_num with_tail
                                       with_head]. by rewrite Hsz, HN. }
  destruct (recovered_frame (with_tail t (with_head h (meta s)))
              (logged (WriteSlots h c) (env s)))
    as (Hr0 & _ & Hw0 & Hcap0). fold s0 in Hr0, Hw0, Hcap0.
  cbn [logged with_blk_log nvs_ready fs_writable fs_capacity]
    in Hr0, Hw0, Hcap0.
  assert (Hfile0 : block_file s0 = Some []).
  { subst s0. unfold block_file, recovered, truncated; cbn [meta env].
    set (m0 := reset_to _ _ _).
    destruct (saved_env_frame m0 (logged (WriteSlots h c) (env s)))
      as (_ & _ & -> & _).
    cbn [logged with_blk_log fs_writable]. rewrite Hw.
    cbn [fs_files with_fs_files]. apply lookup_insert_eq. }
  rewrite Hfile0. unfold stored. rewrite Hmeta0, Hcap0.
  cbn [item_size reset_to]. rewrite Hsz.
  rewrite (u32_id (h * sz)), (s32_id (h * sz)) by lia.
  unfold fseek_set. destruct (Z.ltb_spec (h * sz) 0) as [?|_]; [lia|].
  rewrite (fwrite_full _ [] _ d sz c) by lia.
  cbn [fst snd meta env]. rewrite !(s32_id c), Z.add_0_l, (s32_id c) by lia.
  rewrite advanced_ring; cbn [item_num head tail reset_to]; try lia.
  rewrite Z.sub_0_r, Z.add_0_l, Z_mod_same_full, Z.add_0_l, Z.add_0_l.
  destruct (Z.gtb_spec c (N - 1)) as [?|_]; [lia|].
  rewrite (Z.mod_small c N) by lia.
  set (m' := with_tail 0 (with_head c (reset_to sz N (meta s)))).
  set (w' := with_fs_files _ _).
  destruct (saved_env_frame m' w') as (Hready' & _ & _ & _ & Hfiles' & _).
  split; [reflexivity|].
  destruct (saved_env_persisted m' w' {| meta := m'; env := saved_env m' w' |})
    as (Hh' & Ht' & _); auto.
  { subst w'. cbn [nvs_ready with_fs_files]. congruence. }
  repeat split; auto.
  - cbn [env]. rewrite Hready'. subst w'. cbn [nvs_ready with_fs_files].
    congruence.
  - unfold block_file; cbn [meta env]. rewrite Hfiles'. subst w'.
    cbn [fs_files with_fs_files].
    change (ringbuf_get_path m')
      with (ringbuf_get_path (reset_to sz N (meta s))).
    rewrite lookup_insert_eq. f_equal.
    unfold pwrite. destruct d as [|b d]; [cbn in Hlen; nia|].
    cbn [take length drop]. rewrite take_nil, drop_nil, Nat.sub_0_r.
    by rewrite app_nil_r.
Qed.

(** X14 after the block file of the buffer of three items was deleted: the
    item lands behind twelve zero bytes and the head restarts at 1. *)
Lemma LFRingWrite_recovers_at_old_offset_witness :
  fst (LFRingWrite demo_exceed (item x04) 1 file_deleted) = 1
  /\ at_rest 4 5 1 0 (replicate 12 x00 ++ item x04)
       (snd (LFRingWrite demo_exceed (item x04) 1 file_deleted)).
Proof.
  apply (LFRingWrite_recovers_at_old_offset demo_exceed (item x04) 1
           file_deleted 4 5 3 0); by vm_compute.
Defined.

(** ** Reading in order *)

(** X15.  While the block file holds exactly the slots below the head and
    the tail has not passed the head, [LFRingRead] of [num] items returns
    the [min(num, head - tail)] oldest unread items -- never more than
    were written -- and persists the tail moved past them; on the empty
    buffer that is 0 items and no change. *)
Theorem LFRingRead_returns_oldest num s sz N h t content :
  at_rest sz N h t content s ->
  Z.of_nat (length content) = h * sz ->
  0 < sz -> N * sz < 2 ^ 31 -> 0 <= t <= h -> h < N -> 0 <= num ->
  fst (LFRingRead num s)
  = (Z.min num (h - t),
     take (Z.to_nat (Z.min num (h - t) * sz))
       (drop (Z.to_nat (t * sz)) content))
  /\ at_rest sz N h (t + Z.min num (h - t)) content (snd (LFRingRead num s)).
Proof.
  intros Hrest Hlen Hsz Hbytes Ht Hh Hnum.
  exact (LFRingRead_oldest num s sz N h t content Hrest Hlen Hsz Hbytes Ht Hh
           Hnum).
Qed.

(** X15 on the buffer of three items: a read of two returns the first
    two. *)
Lemma LFRingRead_returns_oldest_witness :
  fst (LFRingRead 2 three_in) = (2, item x01 ++ item x02).
Proof.
  destruct (LFRingRead_returns_oldest 2 three_in 4 5 3 0
              (item x01 ++ item x02 ++ item x03)) as [H _].
  - repeat split; by vm_compute.
  - by vm_compute.
  - by vm_compute.
  - by vm_compute.
  - by vm_compute.
  - by vm_compute.
  - by vm_compute.
  - exact H.
Defined.

(** X16.  Reads compose: in such a state, reading [a] items and then [b]
    items returns, one after the other, exactly the items that a single
    read of [a + b] returns, and leaves the same head, tail and file. *)
Theorem LFRingRead_in_pieces a b s sz N h t content :
  at_rest sz N h t content s ->
  Z.of_nat (length content) = h * sz ->
  0 < sz -> N * sz < 2 ^ 31 -> 0 <= t <= h -> h < N -> 0 <= a -> 0 <= b ->
  fst (fst (LFRingRead a s)) + fst (fst (LFRingRead b (snd (LFRingRead a s))))
  = fst (fst (LFRingRead (a + b) s))
  /\ snd (fst (LFRingRead a s))
       ++ snd (fst (LFRingRead b (snd (LFRingRead a s))))
     = snd (fst (LFRingRead (a + b) s))
  /\ at_rest sz N h (t + Z.min (a + b) (h - t)) content
       (snd (LFRingRead b (snd (LFRingRead a s)))).
Proof.
  intros Hrest Hlen Hsz Hbytes Ht Hh Ha Hb.
  destruct (LFRingRead_oldest a s sz N h t content) as [Hr1 Hs1]; auto.
  destruct (LFRingRead_oldest (a + b) s sz N h t content) as [Hr12 _];
    auto; [lia|].
  cbv zeta in Hr1, Hs1, Hr12.
  set (n1 := Z.min a (h - t)) in *.
  destruct (LFRingRead_oldest b (snd (LFRingRead a s)) sz N h (t + n1) content)
    as [Hr2 Hs2]; auto; [lia|].
  cbv zeta in Hr2, Hs2.
  set (n2 := Z.min b (h - (t + n1))) in *.
  assert (Hsum : n1 + n2 = Z.min (a + b) (h - t)) by lia.
  rewrite Hr1, Hr2, Hr12; cbn [fst snd]. rewrite <- Hsum.
  split; [reflexivity|]. split.
  - replace (Z.to_nat ((t + n1) * sz))
      with (Z.to_nat (t * sz) + Z.to_nat (n1 * sz))%nat by nia.
    rewrite <- drop_drop, take_take_drop. f_equal. nia.
  - by rewrite <- Z.add_assoc in Hs2.
Qed.

(** X16 on the buffer of three items: one item, then two. *)
Lemma LFRingRead_in_pieces_witness :
  snd (fst (LFRingRead 1 three_in))
    ++ snd (fst (LFRingRead 2 (snd (LFRingRead 1 three_in))))
  = snd (fst (LFRingRead (1 + 2) three_in)).
Proof.
  destruct (LFRingRead_in_pieces 1 2 three_in 4 5 3 0
              (item x01 ++ item x02 ++ item x03)) as (_ & H & _).
  - repeat split; by vm_compute.
  - by vm_compute.
  - by vm_compute.
  - by vm_compute.
  - by vm_compute.
  - by vm_compute.
  - by vm_compute.
  - by vm_compute.
  - exact H.
Defined.

(** ** Empty requests *)

(** X17.  A request for zero items is accepted and moves nothing.
    [LFRingWrite] of 0 items returns 0 and [LFRingRead] of 0 items returns
    0 with no bytes; after either, the persisted head and tail and the
    block file are what they were.  (The metadata is saved again with the
    same values.) *)
Theorem zero_items_change_nothing E d s sz N h t content :
  at_rest sz N h t content s ->
  0 < sz -> N * sz < 2 ^ 31 -> 0 <= h < N -> 0 <= t < N ->
  Z.of_nat (length content) < 2 ^ 31 ->
  fst (LFRingWrite E d 0 s) = 0
  /\ at_rest sz N h t content (snd (LFRingWrite E d 0 s))
  /\ fst (LFRingRead 0 s) = (0, [])
  /\ at_rest sz N h t content (snd (LFRingRead 0 s)).
Proof.
  intros Hrest Hsz Hbytes Hh Ht Hlen.
  assert (HN31 : N < 2 ^ 31) by nia.
  destruct (LFRingWrite_stores E d 0 s sz N h t content) as (Hw & _ & Hsw);
    auto; try lia.
  cbv zeta in Hw, Hsw.
  assert (Hfw : fwrite (fs_capacity (env s)) content (Z.to_nat (h * sz)) d sz 0
                = (content, 0)).
  { unfold fwrite. rewrite Z.mul_0_r. change (Z.to_nat 0) with 0%nat.
    rewrite take_0, take_nil. cbn [pwrite length].
    destruct (Z.eqb_spec sz 0); [lia|]. by rewrite Z.div_0_l by lia. }
  rewrite Hfw in Hw, Hsw. cbn [fst snd] in Hw, Hsw.
  assert (Hused : 0 <= (h - t + N) mod N < N) by (apply Z.mod_pos_bound; lia).
  destruct (Z.gtb_spec ((h - t + N) mod N + 0) (N - 1)) as [?|_] in Hsw;
    [lia|].
  rewrite Z.add_0_r, (Z.mod_small h N) in Hsw by lia.
  split; [exact Hw|]. split; [exact Hsw|].
  destruct Hrest as (Hsize & HN & Hready & Hph & Hpt & Hfile).
  destruct (loaded_meta_persisted s h t Hready Hph Hpt) as [_ Hload].
  rewrite !u32_id in Hload by lia.
  destruct (Z.eq_dec t h) as [Heq|Hne].
  - rewrite LFRingRead_run, Hload; cbn zeta.
    cbn [meta env head tail with_head with_tail].
    rewrite Heq, Z.eqb_refl. cbn [fst snd]. split; [reflexivity|].
    subst t. repeat split; auto.
  - assert (Hr : fread content (Z.to_nat (t * sz)) sz 0 = ([], 0)).
    { unfold fread. destruct (Z.eqb_spec sz 0); [lia|].
      assert (0 <= Z.of_nat (length content - Z.to_nat (t * sz)) `div` sz)
        by (apply Z.div_pos; lia).
      rewrite Z.min_l by lia. reflexivity. }
    rewrite (LFRingRead_open 0 s content); rewrite ?Hload;
      cbn [tail head item_size item_num with_tail with_head];
      rewrite ?Hsize, ?HN; try assumption; try nia; try lia.
    rewrite Hr. cbn [fst snd]. split; [reflexivity|].
    rewrite Z.add_0_r, (Z.mod_small t N) by lia.
    set (m' := with_tail t (with_tail t (with_head h (meta s)))).
    set (w' := logged _ _).
    destruct (saved_env_frame m' w') as (Hready' & _ & _ & _ & Hfiles' & _).
    destruct (saved_env_persisted m' w'
                {| meta := m'; env := saved_env m' w' |})
      as (Hh' & Ht' & _); auto.
    repeat split; auto.
    + cbn [env]. by rewrite Hready'.
    + unfold block_file; cbn [meta env]. rewrite Hfiles'. exact Hfile.
Qed.

(** X17 on the buffer of three items. *)
Lemma zero_items_change_nothing_witness :
  fst (LFRingWrite demo_exceed [] 0 three_in) = 0
  /\ fst (LFRingRead 0 three_in) = (0, []).
Proof.
  destruct (zero_items_change_nothing demo_exceed [] three_in 4 5 3 0
              (item x01 ++ item x02 ++ item x03)) as (H1 & _ & H2 & _).
  - repeat split; by vm_compute.
  - by vm_compute.
  - by vm_compute.
  - by vm_compute.
  - by vm_compute.
  - by vm_compute.
  - exact (conj H1 H2).
Defined.

(** ** Durability and overflow *)

(** X18.  What was written survives a restart.  After a first
    [LFRingInit] and writes of [k <= N - 1] items in all, let the struct
    be lost (any struct [m1] will do) while NVS and the file system stay.
    [LFRingInit] with the same root, namespace, size and capacity succeeds
    again, and [LFRingRead] of [k] items then returns the [k] items in the
    order written. *)
Theorem data_survives_restart E rootdir ns sz N m0 m1 w batches :
  nvs w !! substring 0 (NVS_KEY_NAME_MAX_SIZE - 1) ns = None ->
  fst (LFRingInit rootdir ns sz N {| meta := m0; env := w |}) = LFRB_OK ->
  0 < sz -> N * sz < 2 ^ 31 -> N * sz <= Z.of_nat (fs_capacity w) ->
  Forall (fun b => 0 <= snd b /\ Z.of_nat (length (fst b)) = snd b * sz)
    batches ->
  total_items batches <= N - 1 ->
  let s2 := snd (write_all E batches
                   (snd (LFRingInit rootdir ns sz N
                           {| meta := m0; env := w |}))) in
  let r := LFRingInit rootdir ns sz N {| meta := m1; env := env s2 |} in
  fst r = LFRB_OK
  /\ fst (LFRingRead (total_items batches) (snd r))
     = (total_items batches, concat (map fst batches)).
Proof.
  intros Hfresh Hok Hsz Hbytes Hcap Hall Htotal.
  destruct (LFRingInit_fresh rootdir ns sz N m0 w Hfresh Hok)
    as (Hready & Hdir & Hw & ->).
  destruct (fresh_state_at_rest rootdir ns sz N m0 w Hready Hw)
    as [Hrest Hcap0].
  destruct (fresh_state_persisted rootdir ns sz N m0 w Hready)
    as (Hr1 & _ & _ & Hps & Hpn).
  cbv zeta in Hrest, Hcap0, Hr1, Hps, Hpn.
  set (s1 := {| meta := fresh_meta rootdir ns sz N m0; env := _ |}) in *.
  pose proof (total_items_nonneg sz batches Hall) as Hnn.
  destruct (write_all_fills E sz N batches Hsz Hbytes Hall s1 0 [] Hrest)
    as (_ & Hfinal & Hlen); try (cbn [length]; lia).
  destruct (write_all_keeps E batches s1 Hr1 Hps Hpn)
    as (Hgeo & Hr2 & Hd2 & Hw2 & _ & Hps2 & Hpn2).
  rewrite Z.add_0_l in Hfinal, Hlen. cbn [app] in Hfinal, Hlen.
  intros s2 r. fold s2 in Hfinal, Hgeo, Hr2, Hd2, Hw2, Hps2, Hpn2.
  unfold geometry in Hgeo. injection Hgeo as Hroot Hns _ _.
  assert (Hd1 : fs_dirs (env s1) = fs_dirs w /\ fs_writable (env s1) = true).
  { subst s1; cbn [env].
    destruct (truncated_frame (fresh_meta rootdir ns sz N m0)
                (saved_env (fresh_meta rootdir ns sz N m0) w))
      as (_ & _ & -> & -> & _).
    destruct (saved_env_frame (fresh_meta rootdir ns sz N m0) w)
      as (_ & -> & -> & _). done. }
  destruct Hd1 as [Hd1 Hw1].
  destruct (LFRingInit_reopens rootdir ns sz N m1 s2 (total_items batches) 0
              (concat (map fst batches))) as [Hok2 Hrest2];
    try assumption; try nia; try congruence.
  { intros [H0 _]. rewrite H0 in Hlen.
    destruct (concat (map fst batches)); [reflexivity | discriminate]. }
  split; [exact Hok2|].
  apply (LFRingRead_drains sz N); auto; lia.
Qed.

(** X18 on the fresh five-slot buffer: three items and one more, a
    restart from a blank struct, and a read of four. *)
Lemma data_survives_restart_witness :
  fst (LFRingRead 4
         (snd (LFRingInit "root" "root" 4 5
                 {| meta := blank_meta;
                    env := env (snd (write_all demo_exceed
                                       [(item x01 ++ item x02 ++ item x03, 3);
                                        (item x04, 1)]
                                       (snd (LFRingInit "root" "root" 4 5
                                               {| meta := blank_meta;
                                                  env := demo_world |}))))
                 |})))
  = (4, item x01 ++ item x02 ++ item x03 ++ item x04).
Proof.
  destruct (data_survives_restart demo_exceed "root" "root" 4 5 blank_meta
              blank_meta demo_world
              [(item x01 ++ item x02 ++ item x03, 3); (item x04, 1)])
    as [_ H].
  1-5: by vm_compute.
  - repeat constructor; by vm_compute.
  - by vm_compute.
  - exact H.
Defined.

(** X19.  Overflow by one item evicts the oldest.  After a first
    [LFRingInit] and writes that fill the [N - 1] usable slots, one more
    item is accepted, lands in the last slot of the file, and moves the
    persisted head to 0 and the tail to 1; a read of [N - 1] items then
    returns everything written except the first item, the new item
    last. *)
Theorem overflow_by_one_drops_oldest E rootdir ns sz N m0 w batches d :
  nvs w !! substring 0 (NVS_KEY_NAME_MAX_SIZE - 1) ns = None ->
  fst (LFRingInit rootdir ns sz N {| meta := m0; env := w |}) = LFRB_OK ->
  0 < sz -> N * sz < 2 ^ 31 -> N * sz <= Z.of_nat (fs_capacity w) ->
  Forall (fun b => 0 <= snd b /\ Z.of_nat (length (fst b)) = snd b * sz)
    batches ->
  total_items batches = N - 1 -> 2 <= N ->
  Z.of_nat (length d) = sz ->
  let s2 := snd (write_all E batches
                   (snd (LFRingInit rootdir ns sz N
                           {| meta := m0; env := w |}))) in
  let s3 := snd (LFRingWrite E d 1 s2) in
  fst (LFRingWrite E d 1 s2) = 1
  /\ persisted "head" s3 = Some 0
  /\ persisted "tail" s3 = Some 1
  /\ fst (LFRingRead (N - 1) s3)
     = (N - 1, drop (Z.to_nat sz) (concat (map fst batches) ++ d)).
Proof.
  intros Hfresh Hok Hsz Hbytes Hcap Hall Htotal HN Hlen.
  destruct (LFRingInit_fresh rootdir ns sz N m0 w Hfresh Hok)
    as (Hready & Hdir & Hw & ->).
  destruct (fresh_state_at_rest rootdir ns sz N m0 w Hready Hw)
    as [Hrest Hcap0].
  destruct (fresh_state_persisted rootdir ns sz N m0 w Hready)
    as (Hr1 & _ & _ & Hps & Hpn).
  cbv zeta in Hrest, Hcap0, Hr1, Hps, Hpn.
  set (s1 := {| meta := fresh_meta rootdir ns sz N m0; env := _ |}) in *.
  destruct (write_all_fills E sz N batches Hsz Hbytes Hall s1 0 [] Hrest)
    as (_ & Hfinal & Hlenc); try (cbn [length]; lia).
  destruct (write_all_keeps E batches s1 Hr1 Hps Hpn)
    as (_ & _ & _ & _ & Hcap2 & _).
  rewrite Z.add_0_l, Htotal in Hfinal, Hlenc. cbn [app] in Hfinal, Hlenc.
  intros s2 s3. fold s2 in Hfinal, Hcap2.
  set (content := concat (map fst batches)) in *.
  destruct (LFRingWrite_contiguous E d 1 s2 sz N (N - 1) 0 content)
    as (Hret & Hs3 & _); try assumption; try lia; try nia.
  cbv zeta in Hs3. fold s3 in Hs3.
  replace (N - 1 - 0 + N) with (N - 1 + 1 * N) in Hs3 by lia.
  rewrite Z_mod_plus_full, (Z.mod_small (N - 1) N) in Hs3 by lia.
  destruct (Z.gtb_spec (N - 1 + 1) (N - 1)) as [_|?] in Hs3; [|lia].
  replace (N - 1 + 1) with N in Hs3 by lia.
  rewrite Z_mod_same_full in Hs3.
  replace (0 + (N - (N - 1))) with 1 in Hs3 by lia.
  rewrite (Z.mod_small 1 N) in Hs3 by lia.
  replace (Z.to_nat ((N - 1) * sz)) with (length content) in Hs3 by lia.
  rewrite pwrite_append in Hs3.
  split; [exact Hret|].
  destruct Hs3 as (Hsize & HNum & Hready3 & Hh3 & Ht3 & Hfile3).
  split; [exact Hh3|]. split; [exact Ht3|].
  destruct (loaded_meta_persisted s3 0 1 Hready3 Hh3 Ht3) as [_ Hload].
  rewrite !u32_id in Hload by lia.
  assert (Hr : fread (content ++ d) (Z.to_nat (1 * sz)) sz (N - 1)
               = (drop (Z.to_nat sz) (content ++ d), N - 1)).
  { rewrite (fread_whole_items _ _ sz (N - 1) (N - 1)); try lia.
    - rewrite Z.min_id, Z.mul_1_l.
      rewrite take_ge; [reflexivity|]. rewrite length_drop, length_app. lia.
    - rewrite length_app. nia. }
  rewrite (LFRingRead_open (N - 1) s3 (content ++ d)); rewrite ?Hload;
    cbn [tail head item_size item_num with_tail with_head];
    rewrite ?Hsize, ?HNum, ?length_app; try assumption; try nia; try lia.
  by rewrite Hr.
Qed.

(** X19 on the fresh five-slot buffer: four items, then a fifth. *)
Lemma overflow_by_one_drops_oldest_witness :
  fst (LFRingRead (5 - 1)
         (snd (LFRingWrite demo_exceed (item x05) 1
                 (snd (write_all demo_exceed
                         [(item x01 ++ item x02, 2); (item x03 ++ item x04, 2)]
                         (snd (LFRingInit "root" "root" 4 5
                                 {| meta := blank_meta;
                                    env := demo_world |})))))))
  = (5 - 1,
     drop (Z.to_nat 4)
       (concat (map fst [(item x01 ++ item x02, 2);
                         (item x03 ++ item x04, 2)]) ++ item x05)).
Proof.
  destruct (overflow_by_one_drops_oldest demo_exceed "root" "root" 4 5
              blank_meta demo_world
              [(item x01 ++ item x02, 2); (item x03 ++ item x04, 2)]
              (item x05)) as (_ & _ & _ & H).
  1-5: by vm_compute.
  - repeat constructor; by vm_compute.
  - by vm_compute.
  - by vm_compute.
  - by vm_compute.
  - exact H.
Defined.

(** X20.  What a call returns with is what NVS holds.  On a usable NVS
    partition, after every accepted [LFRingWrite] (short, failed,
    recovered or wrapped alike) and every [LFRingRead] on a non-empty
    buffer, the four keys of the namespace hold the head, tail, size and
    count of the struct as the call leaves it. *)
Theorem struct_matches_nvs E data num s :
  nvs_ready (env s) = true ->
  forall s',
    (num >? u32 (item_num (meta s) - 1)) = false
    /\ s' = snd (LFRingWrite E data num s)
    \/ tail (loaded_meta (meta s) (env s))
       <> head (loaded_meta (meta s) (env s))
       /\ s' = snd (LFRingRead num s) ->
    persisted "head" s' = Some (head (meta s'))
    /\ persisted "tail" s' = Some (tail (meta s'))
    /\ persisted "size" s' = Some (item_size (meta s'))
    /\ persisted "num" s' = Some (item_num (meta s')).
Proof.
  intros Hready s' [[Hacc ->] | [Hne ->]].
  - by apply LFRingWrite_saved.
  - rewrite LFRingRead_run; cbn zeta; cbn [meta env].
    destruct (Z.eqb_spec (tail (loaded_meta (meta s) (env s)))
                (head (loaded_meta (meta s) (env s)))) as [?|_]; [done|].
    cbn [snd]. set (r := ringbuf_read num _). set (m' := with_tail _ _).
    apply (saved_env_persisted m' (env (snd r))); auto.
    destruct (ringbuf_read_frame num
                {| meta := loaded_meta (meta s) (env s); env := env s |})
      as (Hr & _). fold r in Hr. by rewrite Hr.
Qed.

(** X20 on the write that fails because the volume is lost. *)
Lemma struct_matches_nvs_witness :
  persisted "head" (snd (LFRingWrite demo_exceed (item x04) 1 volume_lost))
  = Some (head (meta (snd (LFRingWrite demo_exceed (item x04) 1
                             volume_lost)))).
Proof.
  destruct (struct_matches_nvs demo_exceed (item x04) 1 volume_lost eq_refl
              (snd (LFRingWrite demo_exceed (item x04) 1 volume_lost))
              (or_introl (conj eq_refl eq_refl))) as (H & _).
  exact H.
Defined.

(** X21.  First in, first out, at any position before the end of the
    file.  While the block file holds exactly the slots below the head,
    with [h - t] items unread, a write of [c] items that stays within the
    usable slots ([h + c <= N - 1]) evicts nothing, and a read of
    [h - t + c] items then returns the unread items followed by the new
    ones. *)
Theorem old_items_before_new E d c s sz N h t content :
  at_rest sz N h t content s ->
  Z.of_nat (length content) = h * sz ->
  0 < sz -> N * sz < 2 ^ 31 -> 0 <= t <= h -> 0 <= c -> h + c <= N - 1 ->
  Z.of_nat (length d) = c * sz ->
  N * sz <= Z.of_nat (fs_capacity (env s)) ->
  fst (LFRingWrite E d c s) = c
  /\ persisted "tail" (snd (LFRingWrite E d c s)) = Some t
  /\ fst (LFRingRead (h - t + c) (snd (LFRingWrite E d c s)))
     = (h - t + c, drop (Z.to_nat (t * sz)) content ++ d).
Proof.
  intros Hrest Hlenc Hsz Hbytes Ht Hc Hfit Hlen Hcap.
  destruct (LFRingWrite_contiguous E d c s sz N h t content)
    as (Hret & Hs' & _); try assumption; try lia; try nia.
  cbv zeta in Hs'.
  replace (h - t + N) with (h - t + 1 * N) in Hs' by lia.
  rewrite Z_mod_plus_full, (Z.mod_small (h - t) N) in Hs' by lia.
  destruct (Z.gtb_spec (h - t + c) (N - 1)) as [?|_] in Hs'; [lia|].
  rewrite (Z.mod_small (h + c) N) in Hs' by lia.
  replace (Z.to_nat (h * sz)) with (length content) in Hs' by lia.
  rewrite pwrite_append in Hs'.
  split; [exact Hret|]. split; [apply Hs'|].
  destruct (LFRingRead_oldest (h - t + c) (snd (LFRingWrite E d c s)) sz N
              (h + c) t (content ++ d)) as [Hr _];
    try assumption; try lia.
  { rewrite length_app. lia. }
  cbv zeta in Hr. rewrite Hr.
  replace (Z.min (h - t + c) (h + c - t)) with (h - t + c) by lia.
  f_equal. rewrite take_ge by (rewrite length_drop, length_app; nia).
  rewrite drop_app_le by nia. reflexivity.
Qed.

(** X21 on the buffer of three items after one was read: one more item,
    then a read of three. *)
Lemma old_items_before_new_witness :
  fst (LFRingRead (3 - 1 + 1)
         (snd (LFRingWrite demo_exceed (item x04) 1
                 (snd (LFRingRead 1 three_in)))))
  = (3 - 1 + 1,
     drop (Z.to_nat (1 * 4)) (item x01 ++ item x02 ++ item x03) ++ item x04).
Proof.
  destruct (old_items_before_new demo_exceed (item x04) 1
              (snd (LFRingRead 1 three_in)) 4 5 3 1
              (item x01 ++ item x02 ++ item x03)) as (_ & _ & H).
  - repeat split; by vm_compute.
  - by vm_compute.
  - by vm_compute.
  - by vm_compute.
  - by vm_compute.
  - by vm_compute.
  - by vm_compute.
  - by vm_compute.
  - by vm_compute.
  - exact H.
Defined.
